(** * Luminosity calibration with distance priors: the driver script

  A shallow embedding of
  [luminosity-calibration/luminosity_inference_distance_prior.py]:
  the naive estimator [naive_lum_estimate] and the driver
  [run_luminosity_inference].

  Numbers are IEEE binary64 values (Rocq's primitive floats), which is
  what Python floats and numpy's float64 arrays are.  One-dimensional
  numpy arrays are lists.  The script talks to numpy's random
  generator, scipy, the survey simulator, Stan and matplotlib; those
  libraries are an interface ([Libs]) whose calls the embedding
  records as a trace of events, in program order. *)

From Stdlib Require Import Floats ZArith.
From stdpp Require Import gmap strings list.

Set Warnings "-inexact-float".
Set Default Proof Using "Type".

(** ** Python values, exceptions and output *)

Module Py.

(** The exceptions the script can meet in its own expressions. *)
Inductive exn : Type :=
  | ZeroDivisionError
  | ValueError
  | IndexError
  | OverflowError.

Inductive result (A : Type) : Type :=
  | Ok (a : A)
  | Raise (e : exn).
Arguments Ok {A} a.
Arguments Raise {A} e.

Definition rbind {A B} (r : result A) (f : A -> result B) : result B :=
  match r with
  | Ok a => f a
  | Raise e => Raise e
  end.

Fixpoint rmapM {A B} (f : A -> result B) (l : list A) : result (list B) :=
  match l with
  | [] => Ok []
  | x :: l' => rbind (f x) (fun y => rbind (rmapM f l') (fun ys => Ok (y :: ys)))
  end.

(** A piece of a formatted line: literal text, an integer rendered by
    [{0}], a float rendered by [{0:.2f}]. *)
Inductive piece : Type :=
  | Str (s : string)
  | Int (n : Z)
  | F2 (x : float).

(** Values stored in the dictionaries handed to Stan. *)
Inductive pyval : Type :=
  | PyFloat (x : float)
  | PyInt (n : Z)
  | PyArray (a : list float).

(** [x / y] on Python floats raises on a zero divisor (of either sign). *)
Definition float_div (x y : float) : result float :=
  if PrimFloat.eqb y 0%float then Raise ZeroDivisionError else Ok (x / y)%float.

(** [range(lo, hi)] *)
Definition range (lo hi : Z) : list Z := seqZ lo (hi - lo).

End Py.
Export Py.

(** ** numpy on one-dimensional float64 arrays *)

Module Np.

(** A one-dimensional float64 array. *)
Abbreviation ndarray := (list float).

Definition of_nat (n : nat) : float := PrimFloat.of_uint63 (Uint63.of_Z (Z.of_nat n)).

(** Element-wise binary operation with numpy's broadcasting rule for
    one-dimensional operands: equal lengths, or one operand of length
    one; any other pair of shapes raises ValueError. *)
Definition broadcast (op : float -> float -> float) (a b : ndarray) : result ndarray :=
  if (length a =? length b)%nat then Ok (zip_with op a b)
  else match a, b with
       | [x], _ => Ok (map (op x) b)
       | _, [y] => Ok (map (fun x => op x y) a)
       | _, _ => Raise ValueError
       end.

Definition add := broadcast PrimFloat.add.
Definition divide := broadcast PrimFloat.div.

(** [np.where(cond)[0]]: the indices at which [cond] holds, ascending. *)
Fixpoint where_from (i : nat) (cond : list bool) : list nat :=
  match cond with
  | [] => []
  | b :: cond' => if b then i :: where_from (S i) cond' else where_from (S i) cond'
  end.

Definition where_ (cond : list bool) : list nat := where_from 0 cond.

(** [a[idx]] for an index array: IndexError on an index out of bounds. *)
Definition take (a : ndarray) (idx : list nat) : result ndarray :=
  rmapM (fun i => match a !! i with
                  | Some x => Ok x
                  | None => Raise IndexError
                  end) idx.

Fixpoint set_last (y : ndarray) (v : float) : ndarray :=
  match y with
  | [] => []
  | [_] => [v]
  | x :: y' => x :: set_last y' v
  end.

(** [np.linspace(start, stop, num)] with the default [endpoint=True]:
    [num] samples [start + i*step], the last one overwritten by [stop]. *)
Definition linspace (start stop : float) (num : nat) : ndarray :=
  let div := (num - 1)%nat in
  let delta := (stop - start)%float in
  let y := map of_nat (seq 0 num) in
  let y :=
    if (0 <? div)%nat then
      let step := (delta / of_nat div)%float in
      if PrimFloat.eqb step 0%float
      then map (fun i => (i / of_nat div * delta)%float) y
      else map (fun i => (i * step)%float) y
    else map (fun i => (i * delta)%float) y in
  let y := map (fun v => (v + start)%float) y in
  if (1 <? num)%nat then set_last y stop else y.

(** [np.vstack] of one-dimensional rows: they must have one length. *)
Definition vstack (rows : list ndarray) : result (list ndarray) :=
  match rows with
  | [] => Raise ValueError
  | r :: rs =>
      if forallb (fun r' => (length r' =? length r)%nat) rs
      then Ok rows else Raise ValueError
  end.

(** [m.transpose()] of a rectangular two-dimensional array. *)
Definition transpose (m : list ndarray) : list ndarray :=
  match m with
  | [] => []
  | r :: _ => map (fun j => map (fun row => default 0%float (row !! j)) m) (seq 0 (length r))
  end.

End Np.

(** ** scipy.interpolate.interp1d *)

Module Scipy.

(** The object [interp1d(x, y, kind=...)] builds: it keeps the knots. *)
Record interp1d_obj : Type := {
  ip_x : Np.ndarray;
  ip_y : Np.ndarray;
  ip_kind : string
}.

Definition interp1d (x y : Np.ndarray) (kind : string) : interp1d_obj :=
  {| ip_x := x; ip_y := y; ip_kind := kind |}.

(** Calling the interpolant.  With the default [bounds_error] a value
    of [x_new] below the first knot or above the last one raises
    ValueError; otherwise every value goes through the spline of the
    requested kind ([spline], the library's numerical routine). *)
Definition call (spline : string -> Np.ndarray -> Np.ndarray -> float -> float)
    (f : interp1d_obj) (x_new : Np.ndarray) : result Np.ndarray :=
  match head (ip_x f), last (ip_x f) with
  | Some lo, Some hi =>
      if existsb (fun v => PrimFloat.ltb v lo) x_new then Raise ValueError
      else if existsb (fun v => PrimFloat.ltb hi v) x_new then Raise ValueError
      else Ok (map (spline (ip_kind f) (ip_x f) (ip_y f)) x_new)
  | _, _ => Raise ValueError
  end.

End Scipy.

(** ** The external libraries *)

(** What the script imports and does not define: numpy's transcendental
  and reduction routines and its global random generator, scipy's
  spline evaluation, the survey simulator of [parallaxsurveys], and
  [stantools]/[pystan].  [World] is the state those libraries keep
  between calls (random generators, caches).  A call into a library is
  taken to return; the exceptions modelled are those the script's own
  values decide (numpy's shape and index checks, the bounds check of the
  interpolant, the range check of [np.random.uniform], written out where
  the script makes the call) and Python's division by zero. *)
Class Libs : Type := {
  World : Type;
(* numpy *)
  np_log10 : float -> float;
  np_mean : Np.ndarray -> float;
  np_std : Np.ndarray -> float;
  random_uniform : float -> float -> Z -> World -> Np.ndarray * World;
(* scipy *)
  spline : string -> Np.ndarray -> Np.ndarray -> float -> float;
(* parallaxsurveys *)
  Survey : Type;
  udslH : Z -> float -> float -> float -> float -> float -> Survey;
  udslT : Z -> float -> float -> float -> float -> float -> Survey;
  setRandomNumberSeed : Survey -> option Z -> World -> Survey * World;
  generateObservations : Survey -> World -> Survey * World;
  numberOfStarsInSurvey : Survey -> Z;
  observedParallaxes : Survey -> Np.ndarray;
  parallaxErrors : Survey -> Np.ndarray;
  observedMagnitudes : Survey -> Np.ndarray;
  magnitudeErrors : Survey -> Np.ndarray;
  apparentMagnitudeLimit : Survey -> float;
(* stantools and pystan *)
  StanCode : Type;
  StanModel : Type;
  StanFit : Type;
  load_stan_code : string -> StanCode;
  stan_cache : StanCode -> string -> StanModel;
  stan_sampling : StanModel -> gmap string pyval -> list string -> Z -> Z -> Z ->
                option Z -> option (list (gmap string pyval)) -> World -> StanFit * World;
  extract : StanFit -> string -> Np.ndarray
}.

(** ** Command-line arguments *)

(** The dictionary [vars(parser.parse_args())]: argparse fixes its keys
  and the type of each value. *)
Record Args : Type := {
  distMin : float;
  distMax : float;
  nstars : Z;
  muM : float;
  sigmaM : float;
  mlim : float;
  cat : string;
  surveyplot : bool;
  noplots : bool;
  volumecomplete : bool;
  surveyseed : option Z;
  stanseed : option Z;
  staniter : Z;
  stanthin : Z
}.

(** The defaults of [parseCommandLineArguments]. *)
Definition default_args : Args := {|
  distMin := 1.0;
  distMax := 100.0;
  nstars := 50;
  muM := 9.0;
  sigmaM := 0.7;
  mlim := infinity;
  cat := "hip";
  surveyplot := false;
  noplots := false;
  volumecomplete := false;
  surveyseed := None;
  stanseed := None;
  staniter := 10000;
  stanthin := 5
|}.

Section Script.

Context {L : Libs}.

(** *** What a run does to the outside *)

Record sampling_call : Type := {
  sc_model : StanModel;
  sc_data : gmap string pyval;
  sc_pars : list string;
  sc_iter : Z;
  sc_chains : Z;
  sc_thin : Z;
  sc_seed : option Z;
  sc_init : option (list (gmap string pyval))
}.

Record corner_call : Type := {
  cc_samples : list Np.ndarray;
  cc_labels : list string;
  cc_truths : list float;
  cc_truth_color : string;
  cc_quantiles : list float;
  cc_show_titles : bool
}.

Inductive event : Type :=
  | Print (line : list piece)
  | PrintFit (fit : StanFit)
  | ShowSurveyStatistics (survey : Survey) (pdfFile : string) (usekde : bool)
  | LoadStanCode (file : string)
  | StanCache (code : StanCode) (model_name : string)
  | Sampling (c : sampling_call)
  | PltFigure (width height : float)
  | AddSubplot (nrows ncols index : Z)
  | CornerPlot (c : corner_call)
  | PltShow.

(** *** The monad of the script

    A computation runs in a world, emits events and either returns or
    raises; the events emitted before an exception stay emitted. *)
Definition M (A : Type) : Type := World -> result A * list event * World.

Definition ret {A} (a : A) : M A := fun w => (Ok a, [], w).

Definition bind {A B} (m : M A) (f : A -> M B) : M B :=
  fun w =>
    match m w with
    | (Ok a, evs, w') =>
        match f a w' with
        | (r, evs', w'') => (r, evs ++ evs', w'')
        end
    | (Raise e, evs, w') => (Raise e, evs, w')
    end.

Definition emit (e : event) : M unit := fun w => (Ok tt, [e], w).

Definition lift {A} (r : result A) : M A := fun w => (r, [], w).

Definition world_call {A} (f : World -> A * World) : M A :=
  fun w => match f w with (a, w') => (Ok a, [], w') end.

Definition print (line : list piece) : M unit := emit (Print line).

End Script.

Declare Scope script_scope.
Delimit Scope script_scope with script.
Notation "x <- m ;; k" := (bind m (fun x => k))
  (at level 90, m at level 80, k at level 200, right associativity) : script_scope.
Notation "m ;;; k" := (bind m (fun _ => k))
  (at level 90, k at level 200, right associativity) : script_scope.

(** ** The script *)

Section Program.

Context {L : Libs}.
Local Open Scope script_scope.

(** [for x in xs: acc = body(x, acc)] *)
Fixpoint for_ {A S} (xs : list A) (body : A -> S -> M S) (acc : S) : M S :=
  match xs with
  | [] => ret acc
  | x :: xs' => acc' <- body x acc ;; for_ xs' body acc'
  end.

(** Calls into the libraries that the outside sees. *)
Definition call_load_stan_code (file : string) : M StanCode :=
  emit (LoadStanCode file) ;;; ret (load_stan_code file).

Definition call_stan_cache (code : StanCode) (model_name : string) : M StanModel :=
  emit (StanCache code model_name) ;;; ret (stan_cache code model_name).

Definition call_sampling (c : sampling_call) : M StanFit :=
  emit (Sampling c) ;;;
  world_call (stan_sampling (sc_model c) (sc_data c) (sc_pars c) (sc_iter c)
                (sc_chains c) (sc_thin c) (sc_seed c) (sc_init c)).

(** *** naive_lum_estimate *)

(** The Lutz-Kelker table: [interp1d(np.linspace(0,0.175,8), np.array([...]),
    kind='quadratic')]. *)
Definition lk_correction : Scipy.interp1d_obj :=
  Scipy.interp1d (Np.linspace 0 0.175 8)
    [0.0; -0.01; -0.02; -0.06; -0.11; -0.18; -0.28; -0.43]%float
    "quadratic".

Definition lk_relative_error_limit : float := 0.175.

Definition naive_lum_estimate (obsplx errplx obsmag errmag : Np.ndarray) : M unit :=
  ratio <- lift (Np.divide obsplx errplx) ;;
  let goodplx :=
    Np.where_ (map (fun r => PrimFloat.leb (1 / lk_relative_error_limit) r) ratio) in
  if (3 <=? length goodplx)%nat then
    obsmag_g <- lift (Np.take obsmag goodplx) ;;
    obsplx_g <- lift (Np.take obsplx goodplx) ;;
    s <- lift (Np.add obsmag_g (map (fun v => (5 * np_log10 v)%float) obsplx_g)) ;;
    let absMagNaive := map (fun v => (v - 10.0)%float) s in
    errplx_g <- lift (Np.take errplx goodplx) ;;
    obsplx_g <- lift (Np.take obsplx goodplx) ;;
    relerr <- lift (Np.divide errplx_g obsplx_g) ;;
    corr <- lift (Scipy.call spline lk_correction relerr) ;;
    absMagNaiveCorrected <- lift (Np.add absMagNaive corr) ;;
    obsplx_g <- lift (Np.take obsplx goodplx) ;;
    print [Str "Number of 'good' parallaxes used "; Int (Z.of_nat (length obsplx_g));
           Str "/"; Int (Z.of_nat (length obsplx))] ;;;
    print [Str "### Naive estimate ###"] ;;;
    print [Str "Mean and sigma: "; F2 (np_mean absMagNaive); Str ", ";
           F2 (np_std absMagNaive)] ;;;
    print [Str "### Naive estimate after LK correction ###"] ;;;
    print [Str "Mean and sigma: "; F2 (np_mean absMagNaiveCorrected); Str ", ";
           F2 (np_std absMagNaiveCorrected)]
  else
    print [Str "Cannot make naive estimate"].

(** *** run_luminosity_inference *)

Definition numChains : Z := 4.

(** [np.random.uniform(low, high, size=size)]: numpy raises
    OverflowError ("Range exceeds valid bounds") when the range
    [high - low] is not finite, and draws otherwise. *)
Definition call_random_uniform (low high : float) (size : Z) : M Np.ndarray :=
  if PrimFloat.is_finite (high - low)
  then world_call (random_uniform low high size)
  else lift (Raise OverflowError).

(** Line 119: [np.vstack([fit.extract()['meanAbsMag'],
    fit.extract()['sigmaAbsMag']]).transpose()]. *)
Definition posterior_samples (fit : StanFit) : result (list Np.ndarray) :=
  rbind (Np.vstack [extract fit "meanAbsMag"; extract fit "sigmaAbsMag"])
    (fun m => Ok (Np.transpose m)).

(** The body of [run_luminosity_inference].  Line 116 calls whatever the
    module binds to the name [naive_lum_estimate]; the body takes that
    function as its first argument, so that what it is called on can be
    told from what it does. *)
Definition run_luminosity_inference_with
    (naive_lum_estimate : Np.ndarray -> Np.ndarray -> Np.ndarray -> Np.ndarray -> M unit)
    (args : Args) : M unit :=
  let distMin := distMin args in
  let distMax := distMax args in
  plxMin <- lift (float_div 1000.0 distMax) ;;
  plxMax <- lift (float_div 1000.0 distMin) ;;
  let nstars := nstars args in
  let absMagTrue := muM args in
  let sigmaAbsMagTrue := sigmaM args in
  let magLimit := mlim args in
  print [Str "### Generating parallax survey ... ###"] ;;;
  let survey :=
    if String.eqb (cat args) "hip"
    then udslH nstars distMin distMax absMagTrue sigmaAbsMagTrue magLimit
    else udslT nstars distMin distMax absMagTrue sigmaAbsMagTrue magLimit in
  survey <- world_call (setRandomNumberSeed survey (surveyseed args)) ;;
  survey <- world_call (generateObservations survey) ;;
  print [Str "### ... Done ###"] ;;;
  (if surveyplot args && negb (noplots args)
   then emit (ShowSurveyStatistics survey "surveyStats.pdf" false)
   else ret tt) ;;;
  fit <-
    (if volumecomplete args then
       let stan_data : gmap string pyval :=
         {[ "minDist" := PyFloat distMin; "maxDist" := PyFloat distMax;
            "N" := PyInt (numberOfStarsInSurvey survey);
            "obsPlx" := PyArray (observedParallaxes survey);
            "errObsPlx" := PyArray (parallaxErrors survey);
            "obsMag" := PyArray (observedMagnitudes survey);
            "errObsMag" := PyArray (magnitudeErrors survey) ]} in
       stanmodel <-
         call_load_stan_code "luminosity_inference_volume_complete_distance_prior.stan" ;;
       sm <- call_stan_cache stanmodel "luminosityInferenceDistPriorVC" ;;
       call_sampling
         {| sc_model := sm; sc_data := stan_data;
            sc_pars := ["meanAbsMag"; "sigmaAbsMag"]; sc_iter := staniter args;
            sc_chains := numChains; sc_thin := stanthin args;
            sc_seed := stanseed args; sc_init := None |}
     else
       let maxPossibleAbsMag :=
         (apparentMagnitudeLimit survey - 5 * np_log10 distMax + 5)%float in
       let initLow := (maxPossibleAbsMag - 4)%float in
       initialValuesList <-
         for_ (range 0 numChains)
           (fun i initialValuesList =>
              absMag <- call_random_uniform initLow maxPossibleAbsMag
                          (numberOfStarsInSurvey survey) ;;
              ret (initialValuesList ++ [ ({[ "absMag" := PyArray absMag ]} : gmap string pyval) ]))
           [] ;;
       let stan_data : gmap string pyval :=
         {[ "minDist" := PyFloat distMin; "maxDist" := PyFloat distMax;
            "surveyLimit" := PyFloat (apparentMagnitudeLimit survey);
            "N" := PyInt (numberOfStarsInSurvey survey);
            "obsPlx" := PyArray (observedParallaxes survey);
            "errObsPlx" := PyArray (parallaxErrors survey);
            "obsMag" := PyArray (observedMagnitudes survey);
            "errObsMag" := PyArray (magnitudeErrors survey) ]} in
       stanmodel <- call_load_stan_code "luminosity_inference_distance_prior.stan" ;;
       sm <- call_stan_cache stanmodel "luminosityInferenceDistPrior" ;;
       call_sampling
         {| sc_model := sm; sc_data := stan_data;
            sc_pars := ["meanAbsMag"; "sigmaAbsMag"]; sc_iter := staniter args;
            sc_chains := numChains; sc_thin := stanthin args;
            sc_seed := stanseed args; sc_init := Some initialValuesList |}) ;;
  print [] ;;;
  emit (PrintFit fit) ;;;
  print [] ;;;
  naive_lum_estimate (observedParallaxes survey) (parallaxErrors survey)
    (observedMagnitudes survey) (magnitudeErrors survey) ;;;
  samples <- lift (posterior_samples fit) ;;
  if negb (noplots args) then
    emit (PltFigure 8 8) ;;;
    for_ (range 1 5) (fun i _ => emit (AddSubplot 2 2 i)) tt ;;;
    emit (CornerPlot
            {| cc_samples := samples; cc_labels := ["$\mu_M$"; "$\sigma_M$"];
               cc_truths := [absMagTrue; sigmaAbsMagTrue]; cc_truth_color := "r";
               cc_quantiles := [0.16; 0.50; 0.84]%float; cc_show_titles := true |}) ;;;
    emit PltShow
  else ret tt.

(** The function of the module: the body, with the module's own
    [naive_lum_estimate]. *)
Definition run_luminosity_inference (args : Args) : M unit :=
  run_luminosity_inference_with naive_lum_estimate args.

End Program.

(** ** The module body *)

Section ModuleBody.

Context {L : Libs}.

(** [sub in s] on Python strings: [sub] occurs in [s]. *)
Fixpoint py_in (sub s : string) : bool :=
  match s with
  | EmptyString => String.eqb sub EmptyString
  | String _ s' => String.prefix sub s || py_in sub s'
  end.

(** Lines 169-171, [if __name__ in ('__main__'): ...]; [parsed] is what
    [parseCommandLineArguments()] returns.  The parentheses do not make
    a tuple: the test is the substring test on strings. *)
Definition module_body (name : string) (parsed : Args) : M unit :=
  if py_in name "__main__" then run_luminosity_inference parsed else ret tt.

End ModuleBody.

(** ** A stand-in for the libraries

  To run the script on concrete data the library interface is filled
  with small deterministic stand-ins: the world is a counter of random
  draws, the survey holds three fixed stars (brighter than magnitude
  12), the fit two fixed draws.
  The numerical routines are crude on purpose (a sequential mean, the
  identity for [log10], the constant zero spline); nothing proved
  about the script depends on them. *)

Module Demo.

Record survey : Type := {
  sv_limit : float;
  sv_n : Z;
  sv_plx : Np.ndarray;
  sv_plxerr : Np.ndarray;
  sv_mag : Np.ndarray;
  sv_magerr : Np.ndarray
}.

Definition new_survey (n : Z) (dmin dmax mu sigma limit : float) : survey :=
  {| sv_limit := limit; sv_n := 0; sv_plx := []; sv_plxerr := [];
     sv_mag := []; sv_magerr := [] |}.

Definition observe (s : survey) : survey :=
  {| sv_limit := sv_limit s; sv_n := 3;
     sv_plx := [20.0; 40.0; 12.5]%float; sv_plxerr := [1.0; 1.0; 1.0]%float;
     sv_mag := [11.5; 11.0; 11.9]%float; sv_magerr := [0.01; 0.01; 0.01]%float |}.

Definition sum (a : Np.ndarray) : float := foldl PrimFloat.add 0%float a.

Definition mean (a : Np.ndarray) : float := (sum a / Np.of_nat (length a))%float.

Definition std (a : Np.ndarray) : float :=
  let m := mean a in
  PrimFloat.sqrt (mean (map (fun x => ((x - m) * (x - m))%float) a)).

(** The command line [--mlim 12], everything else left at its default. *)
Definition args : Args := {|
  distMin := distMin default_args;
  distMax := distMax default_args;
  nstars := nstars default_args;
  muM := muM default_args;
  sigmaM := sigmaM default_args;
  mlim := 12.0;
  cat := cat default_args;
  surveyplot := surveyplot default_args;
  noplots := noplots default_args;
  volumecomplete := volumecomplete default_args;
  surveyseed := surveyseed default_args;
  stanseed := stanseed default_args;
  staniter := staniter default_args;
  stanthin := stanthin default_args
|}.

(** The command line [--mlim 12 --surveyplot --noplots]. *)
Definition quiet_args : Args := {|
  distMin := distMin default_args;
  distMax := distMax default_args;
  nstars := nstars default_args;
  muM := muM default_args;
  sigmaM := sigmaM default_args;
  mlim := 12.0;
  cat := cat default_args;
  surveyplot := true;
  noplots := true;
  volumecomplete := volumecomplete default_args;
  surveyseed := surveyseed default_args;
  stanseed := stanseed default_args;
  staniter := staniter default_args;
  stanthin := stanthin default_args
|}.

Definition libs : Libs := {|
  World := nat;
  np_log10 := fun x => x;
  np_mean := mean;
  np_std := std;
  random_uniform := fun lo hi n w => (replicate (Z.to_nat n) lo, S w);
  spline := fun _ _ _ _ => 0%float;
  Survey := survey;
  udslH := new_survey;
  udslT := new_survey;
  setRandomNumberSeed := fun s _ w => (s, w);
  generateObservations := fun s w => (observe s, w);
  numberOfStarsInSurvey := sv_n;
  observedParallaxes := sv_plx;
  parallaxErrors := sv_plxerr;
  observedMagnitudes := sv_mag;
  magnitudeErrors := sv_magerr;
  apparentMagnitudeLimit := sv_limit;
  StanCode := string;
  StanModel := string * string;
  StanFit := unit;
  load_stan_code := fun file => file;
  stan_cache := fun code name => (code, name);
  stan_sampling := fun _ _ _ _ _ _ _ _ w => (tt, w);
  extract := fun _ par => if String.eqb par "meanAbsMag" then [9.0; 9.1]%float
                          else [0.7; 0.6]%float
|}.

End Demo.

(** ** A stand-in survey on the rounding edge

    The stand-in libraries again, with a survey whose first star has a
    parallax over error that rounds to the threshold of the cut. *)

Module Edge.

Definition observe (s : Demo.survey) : Demo.survey :=
  {| Demo.sv_limit := Demo.sv_limit s; Demo.sv_n := 3;
     Demo.sv_plx := [8.17260580978727; 20.0; 40.0]%float;
     Demo.sv_plxerr := [1.4302060167127721; 1.0; 1.0]%float;
     Demo.sv_mag := [11.5; 11.5; 11.0]%float;
     Demo.sv_magerr := [0.01; 0.01; 0.01]%float |}.

Definition libs : Libs := {|
  World := nat;
  np_log10 := fun x => x;
  np_mean := Demo.mean;
  np_std := Demo.std;
  random_uniform := fun lo hi n w => (replicate (Z.to_nat n) lo, S w);
  spline := fun _ _ _ _ => 0%float;
  Survey := Demo.survey;
  udslH := Demo.new_survey;
  udslT := Demo.new_survey;
  setRandomNumberSeed := fun s _ w => (s, w);
  generateObservations := fun s w => (observe s, w);
  numberOfStarsInSurvey := Demo.sv_n;
  observedParallaxes := Demo.sv_plx;
  parallaxErrors := Demo.sv_plxerr;
  observedMagnitudes := Demo.sv_mag;
  magnitudeErrors := Demo.sv_magerr;
  apparentMagnitudeLimit := Demo.sv_limit;
  StanCode := string;
  StanModel := string * string;
  StanFit := unit;
  load_stan_code := fun file => file;
  stan_cache := fun code name => (code, name);
  stan_sampling := fun _ _ _ _ _ _ _ _ w => (tt, w);
  extract := fun _ par => if String.eqb par "meanAbsMag" then [9.0; 9.1]%float
                          else [0.7; 0.6]%float
|}.

(** The command line [--distMax 0 --mlim 12]. *)
Definition zero_args : Args := {|
  distMin := distMin default_args;
  distMax := 0;
  nstars := nstars default_args;
  muM := muM default_args;
  sigmaM := sigmaM default_args;
  mlim := 12.0;
  cat := cat default_args;
  surveyplot := surveyplot default_args;
  noplots := noplots default_args;
  volumecomplete := volumecomplete default_args;
  surveyseed := surveyseed default_args;
  stanseed := stanseed default_args;
  staniter := staniter default_args;
  stanthin := stanthin default_args
|}.

End Edge.

(** ** A stand-in survey of two stars

    The stand-in libraries once more, with a survey too small for the
    naive estimate. *)

Module Few.

Definition observe (s : Demo.survey) : Demo.survey :=
  {| Demo.sv_limit := Demo.sv_limit s; Demo.sv_n := 2;
     Demo.sv_plx := [20.0; 40.0]%float;
     Demo.sv_plxerr := [1.0; 1.0]%float;
     Demo.sv_mag := [11.5; 11.0]%float;
     Demo.sv_magerr := [0.01; 0.01]%float |}.

Definition libs : Libs := {|
  World := nat;
  np_log10 := fun x => x;
  np_mean := Demo.mean;
  np_std := Demo.std;
  random_uniform := fun lo hi n w => (replicate (Z.to_nat n) lo, S w);
  spline := fun _ _ _ _ => 0%float;
  Survey := Demo.survey;
  udslH := Demo.new_survey;
  udslT := Demo.new_survey;
  setRandomNumberSeed := fun s _ w => (s, w);
  generateObservations := fun s w => (observe s, w);
  numberOfStarsInSurvey := Demo.sv_n;
  observedParallaxes := Demo.sv_plx;
  parallaxErrors := Demo.sv_plxerr;
  observedMagnitudes := Demo.sv_mag;
  magnitudeErrors := Demo.sv_magerr;
  apparentMagnitudeLimit := Demo.sv_limit;
  StanCode := string;
  StanModel := string * string;
  StanFit := unit;
  load_stan_code := fun file => file;
  stan_cache := fun code name => (code, name);
  stan_sampling := fun _ _ _ _ _ _ _ _ w => (tt, w);
  extract := fun _ par => if String.eqb par "meanAbsMag" then [9.0; 9.1]%float
                          else [0.7; 0.6]%float
|}.

End Few.

(** ** Observations on a run *)

Section Observations.

Context {L : Libs}.

Definition outcome {A} (m : M A) (w : World) : result A := (m w).1.1.

Definition trace {A} (m : M A) (w : World) : list event := (m w).1.2.

Definition samplings (evs : list event) : list sampling_call :=
  omap (fun e => match e with Sampling c => Some c | _ => None end) evs.

Definition loaded_files (evs : list event) : list string :=
  omap (fun e => match e with LoadStanCode f => Some f | _ => None end) evs.

Definition cached_models (evs : list event) : list (StanCode * string) :=
  omap (fun e => match e with StanCache c n => Some (c, n) | _ => None end) evs.

Definition survey_plots (evs : list event) : list (Survey * string * bool) :=
  omap (fun e => match e with
                 | ShowSurveyStatistics s f k => Some (s, f, k)
                 | _ => None
                 end) evs.

Definition printed_fits (evs : list event) : list StanFit :=
  omap (fun e => match e with PrintFit f => Some f | _ => None end) evs.

Definition corner_plots (evs : list event) : list corner_call :=
  omap (fun e => match e with CornerPlot c => Some c | _ => None end) evs.

(** The first sampler call of a trace and the events after it. *)
Fixpoint after_sampling (evs : list event) : option (sampling_call * list event) :=
  match evs with
  | [] => None
  | Sampling c :: evs' => Some (c, evs')
  | _ :: evs' => after_sampling evs'
  end.

(** Events that draw something. *)
Definition is_plot (e : event) : bool :=
  match e with
  | ShowSurveyStatistics _ _ _ | PltFigure _ _ | AddSubplot _ _ _
  | CornerPlot _ | PltShow => true
  | _ => false
  end.

(** The line that carries an estimate. *)
Definition mean_and_sigma (mean sigma : float) : event :=
  Print [Str "Mean and sigma: "; F2 mean; Str ", "; F2 sigma].

(** The five lines printed when the naive estimate is made from the
    per-star values [naive] and [corrected], [n] stars out of [total]. *)
Definition estimate_report (n total : nat) (naive corrected : Np.ndarray) : list event :=
  [ Print [Str "Number of 'good' parallaxes used "; Int (Z.of_nat n); Str "/";
           Int (Z.of_nat total)];
    Print [Str "### Naive estimate ###"];
    mean_and_sigma (np_mean naive) (np_std naive);
    Print [Str "### Naive estimate after LK correction ###"];
    mean_and_sigma (np_mean corrected) (np_std corrected) ].

(** A call makes the estimate when it returns having printed the
    report of some per-star values. *)
Definition makes_estimate (r : result unit * list event * World) : Prop :=
  r.1.1 = Ok tt /\
  exists n total naive corrected, r.1.2 = estimate_report n total naive corrected.

(** The cut of line 38 on one star. *)
Definition good_parallax (plx err : float) : bool :=
  PrimFloat.leb (1 / lk_relative_error_limit) (plx / err).

(** The indices line 38 selects from arrays of one length. *)
Definition goodplx (obsplx errplx : Np.ndarray) : list nat :=
  Np.where_ (zip_with good_parallax obsplx errplx).

(** The domain of the Lutz-Kelker table: the interpolant raises on a
    value below 0 or above 0.175. *)
Definition in_table_domain (x : float) : bool :=
  negb (PrimFloat.ltb x 0) && negb (PrimFloat.ltb 0.175 x).

(** The Lutz-Kelker correction at a relative error: the quadratic
    spline through the eight tabulated points. *)
Definition lk_value (x : float) : float :=
  spline "quadratic" (Np.linspace 0 0.175 8)
    [0.0; -0.01; -0.02; -0.06; -0.11; -0.18; -0.28; -0.43]%float x.

(** [a[idx]] when every index is in bounds. *)
Definition gather (a : Np.ndarray) (idx : list nat) : Np.ndarray :=
  map (fun i => default 0%float (a !! i)) idx.

(** The per-star naive absolute magnitudes of the selected stars
    (line 41, indices in bounds). *)
Definition naive_values (obsplx obsmag : Np.ndarray) (good : list nat) : Np.ndarray :=
  map (fun v => (v - 10.0)%float)
    (zip_with PrimFloat.add (gather obsmag good)
       (map (fun v => (5 * np_log10 v)%float) (gather obsplx good))).

(** Their relative parallax errors (the argument of line 42's
    interpolation). *)
Definition relative_errors (obsplx errplx : Np.ndarray) (good : list nat) : Np.ndarray :=
  zip_with PrimFloat.div (gather errplx good) (gather obsplx good).

(** The survey object after lines 75-80. *)
Definition generated_survey (args : Args) (w : World) : Survey * World :=
  let survey :=
    if String.eqb (cat args) "hip"
    then udslH (nstars args) (distMin args) (distMax args) (muM args) (sigmaM args)
           (mlim args)
    else udslT (nstars args) (distMin args) (distMax args) (muM args) (sigmaM args)
           (mlim args) in
  let (survey, w) := setRandomNumberSeed survey (surveyseed args) w in
  generateObservations survey w.

(** [k] successive calls of [np.random.uniform(lo, hi, size=n)]. *)
Fixpoint draws (k : nat) (lo hi : float) (n : Z) (w : World) : list Np.ndarray * World :=
  match k with
  | O => ([], w)
  | S k' =>
      let (a, w) := random_uniform lo hi n w in
      let (l, w) := draws k' lo hi n w in
      (a :: l, w)
  end.

(** Computations that only print. *)
Definition only_prints {A} (m : M A) : Prop :=
  forall w, Forall (fun e => exists line, e = Print line) (trace m w).

(** The keys every dictionary of data has. *)
Definition common_keys : gset string :=
  {[ "minDist"; "maxDist"; "N"; "obsPlx"; "errObsPlx"; "obsMag"; "errObsMag" ]}.

(** The bounds [initLow] and [maxPossibleAbsMag] of lines 97-98. *)
Definition initial_value_bounds (args : Args) (survey : Survey) : float * float :=
  let maxPossibleAbsMag :=
    (apparentMagnitudeLimit survey - 5 * np_log10 (distMax args) + 5)%float in
  ((maxPossibleAbsMag - 4)%float, maxPossibleAbsMag).

(** The initial values can be drawn: [np.random.uniform] accepts the
    range of lines 97-98. *)
Definition drawable (args : Args) (survey : Survey) : bool :=
  let (initLow, maxPossibleAbsMag) := initial_value_bounds args survey in
  PrimFloat.is_finite (maxPossibleAbsMag - initLow).

(** The run gets as far as the sampler: neither distance bound is a
    zero divisor on lines 65-66 and, for the magnitude limited model,
    the initial values can be drawn. *)
Definition reaches_sampler (args : Args) (w : World) : bool :=
  negb (PrimFloat.eqb (distMax args) 0) && negb (PrimFloat.eqb (distMin args) 0) &&
  (volumecomplete args || drawable args (generated_survey args w).1).

(** A float is not a zero divisor. *)
Definition nonzero (x : float) : Prop := PrimFloat.eqb x 0%float = false.

End Observations.

(** ** Further observations *)

Section MoreObservations.

Context {L : Libs}.

(** A computation that does not touch the world: it ends in the world it
    starts in, with a result and an output that do not depend on it. *)
Definition stateless {A} (m : M A) : Prop :=
  exists r evs, forall w, m w = (r, evs, w).

(** The events of the corner plot, in the order of lines 122-127. *)
Definition corner_figure (c : corner_call) : list event :=
  [PltFigure 8 8; AddSubplot 2 2 1; AddSubplot 2 2 2; AddSubplot 2 2 3;
   AddSubplot 2 2 4; CornerPlot c; PltShow].

End MoreObservations.

Arguments naive_lum_estimate : simpl never.

(** ** numpy and scipy facts *)

Section ArrayFacts.

Lemma broadcast_same_length op (a b : Np.ndarray) :
  length a = length b -> Np.broadcast op a b = Ok (zip_with op a b).
Proof.
  intros H. unfold Np.broadcast.
  apply Nat.eqb_eq in H. now rewrite H.
Qed.

Lemma where_from_elem cond : forall i k,
  k ∈ Np.where_from i cond <-> exists j, k = (i + j)%nat /\ cond !! j = Some true.
Proof.
  induction cond as [|b cond IH]; intros i k; simpl.
  - split; [intros H; inversion H | intros (j & _ & H); discriminate].
  - assert (Hrec : k ∈ Np.where_from (S i) cond <->
                   exists j, k = (i + S j)%nat /\ cond !! j = Some true).
    { rewrite IH. split; intros (j & -> & Hj); exists j; split; auto; lia. }
    destruct b.
    + rewrite elem_of_cons, Hrec. split.
      * intros [-> | (j & -> & Hj)]; [exists 0%nat | exists (S j)]; split; auto; lia.
      * intros ([|j] & -> & Hj); [left; lia | right; exists j; auto].
    + rewrite Hrec. split.
      * intros (j & -> & Hj). exists (S j). auto.
      * intros ([|j] & -> & Hj); [discriminate | exists j; auto].
Qed.

Lemma where_elem cond k : k ∈ Np.where_ cond <-> cond !! k = Some true.
Proof.
  unfold Np.where_. rewrite where_from_elem. split.
  - now intros (j & -> & Hj).
  - intros H. now exists k.
Qed.

Lemma where_lt cond k : k ∈ Np.where_ cond -> (k < length cond)%nat.
Proof. rewrite where_elem. apply lookup_lt_Some. Qed.

Lemma take_gather (a : Np.ndarray) idx :
  (forall i, i ∈ idx -> (i < length a)%nat) -> Np.take a idx = Ok (gather a idx).
Proof.
  unfold Np.take, gather. induction idx as [|i idx IH]; intros H; [done|].
  destruct (lookup_lt_is_Some_2 a i) as [x Hx]; [apply H; left|].
  cbn [rmapM fmap list_fmap map]. rewrite Hx. cbn [rbind default].
  rewrite IH; [done|]. intros j Hj. apply H. now right.
Qed.

Lemma gather_lookup (a : Np.ndarray) idx k i x :
  idx !! k = Some i -> a !! i = Some x -> gather a idx !! k = Some x.
Proof.
  intros Hk Hi. unfold gather. rewrite list_lookup_fmap, Hk. simpl. now rewrite Hi.
Qed.

Lemma gather_length (a : Np.ndarray) idx : length (gather a idx) = length idx.
Proof. unfold gather. now rewrite length_map. Qed.

Lemma existsb_false {A} (f : A -> bool) l :
  (forall x, x ∈ l -> f x = false) -> existsb f l = false.
Proof.
  induction l as [|x l IH]; intros H; simpl; [done|].
  rewrite (H x) by left. apply IH. intros y Hy. apply H. now right.
Qed.

Lemma lk_correction_in_domain spl (x_new : Np.ndarray) :
  forallb in_table_domain x_new = true ->
  Scipy.call spl lk_correction x_new =
  Ok (map (spl "quadratic" (Np.linspace 0 0.175 8)
             [0.0; -0.01; -0.02; -0.06; -0.11; -0.18; -0.28; -0.43]%float) x_new).
Proof.
  intros H. unfold Scipy.call.
  change (head (Scipy.ip_x lk_correction)) with (head (Np.linspace 0 0.175 8)).
  change (last (Scipy.ip_x lk_correction)) with (last (Np.linspace 0 0.175 8)).
  replace (head (Np.linspace 0 0.175 8)) with (Some 0%float) by (vm_compute; reflexivity).
  replace (last (Np.linspace 0 0.175 8)) with (Some 0.175%float) by (vm_compute; reflexivity).
  rewrite forallb_forall in H.
  rewrite !existsb_false; [reflexivity | |]; intros x Hx%list_elem_of_In;
    apply H, andb_true_iff in Hx as [Hlo Hhi];
    [apply negb_true_iff in Hhi | apply negb_true_iff in Hlo]; done.
Qed.

End ArrayFacts.

(** ** The naive estimator *)

Section NaiveEstimate.

Context {L : Libs}.

Lemma goodplx_lt obsplx errplx i :
  length errplx = length obsplx -> i ∈ goodplx obsplx errplx -> (i < length obsplx)%nat.
Proof.
  intros Hlen Hi. apply where_lt in Hi.
  rewrite length_zip_with in Hi. lia.
Qed.

Lemma goodplx_elem obsplx errplx i :
  i ∈ goodplx obsplx errplx <->
  exists p e, obsplx !! i = Some p /\ errplx !! i = Some e /\ good_parallax p e = true.
Proof.
  unfold goodplx. rewrite where_elem, lookup_zip_with_Some. split.
  - intros (p & e & Hg & Hp & He). exists p, e. auto.
  - intros (p & e & Hp & He & Hg). exists p, e. auto.
Qed.

Lemma cut_fused (obsplx errplx : Np.ndarray) :
  map (fun r => PrimFloat.leb (1 / lk_relative_error_limit) r)
    (zip_with PrimFloat.div obsplx errplx) =
  zip_with good_parallax obsplx errplx.
Proof.
  revert errplx.
  induction obsplx as [|p ps IH]; intros [|e es]; simpl; f_equal; auto.
Qed.

Lemma scipy_call_length spl f x_new y :
  Scipy.call spl f x_new = Ok y -> length y = length x_new.
Proof.
  unfold Scipy.call. intros H.
  repeat match type of H with
         | context [match ?c with _ => _ end] => destruct c; try discriminate
         end.
  inversion H. now rewrite length_map.
Qed.

Lemma naive_values_length obsplx obsmag good :
  length (naive_values obsplx obsmag good) = length good.
Proof.
  unfold naive_values.
  rewrite length_map, length_zip_with, length_map, !gather_length. lia.
Qed.

Lemma relative_errors_length obsplx errplx good :
  length (relative_errors obsplx errplx good) = length good.
Proof.
  unfold relative_errors. rewrite length_zip_with, !gather_length. lia.
Qed.

(** What a call on arrays of one length evaluates to. *)
Lemma naive_lum_estimate_eval obsplx errplx obsmag errmag w :
  length errplx = length obsplx -> length obsmag = length obsplx ->
  naive_lum_estimate obsplx errplx obsmag errmag w =
  let good := goodplx obsplx errplx in
  if (3 <=? length good)%nat then
    let naive := naive_values obsplx obsmag good in
    match Scipy.call spline lk_correction (relative_errors obsplx errplx good) with
    | Ok corr =>
        (Ok tt, estimate_report (length good) (length obsplx) naive
                  (zip_with PrimFloat.add naive corr), w)
    | Raise e => (Raise e, [], w)
    end
  else (Ok tt, [Print [Str "Cannot make naive estimate"]], w).
Proof.
  intros Hlen Hmag. unfold naive_lum_estimate, Np.divide, Np.add.
  rewrite (broadcast_same_length _ obsplx errplx) by done.
  unfold bind at 1. unfold lift at 1.
  rewrite cut_fused. fold (goodplx obsplx errplx).
  set (good := goodplx obsplx errplx).
  assert (Hgood : forall i, i ∈ good -> (i < length obsplx)%nat)
    by (intros i; apply goodplx_lt; done).
  cbv zeta. destruct (3 <=? length good)%nat; [|reflexivity].
  rewrite !take_gather by (intros i Hi; specialize (Hgood i Hi); lia).
  unfold bind, lift, print, emit.
  rewrite !broadcast_same_length by (rewrite ?length_map, !gather_length; done).
  fold (naive_values obsplx obsmag good) (relative_errors obsplx errplx good).
  destruct (Scipy.call _ _ _) as [corr|e] eqn:Hcall; [|reflexivity].
  apply scipy_call_length in Hcall.
  rewrite broadcast_same_length
    by (rewrite Hcall, naive_values_length, relative_errors_length; done).
  rewrite gather_length. reflexivity.
Qed.

Lemma naive_values_lookup obsplx obsmag good k i p m :
  good !! k = Some i -> obsplx !! i = Some p -> obsmag !! i = Some m ->
  naive_values obsplx obsmag good !! k = Some (m + 5 * np_log10 p - 10.0)%float.
Proof.
  intros Hk Hp Hm. unfold naive_values.
  rewrite list_lookup_fmap, lookup_zip_with, list_lookup_fmap.
  rewrite (gather_lookup _ _ _ _ _ Hk Hm), (gather_lookup _ _ _ _ _ Hk Hp).
  reflexivity.
Qed.

Lemma relative_errors_lookup obsplx errplx good k i p e :
  good !! k = Some i -> obsplx !! i = Some p -> errplx !! i = Some e ->
  relative_errors obsplx errplx good !! k = Some (e / p)%float.
Proof.
  intros Hk Hp He. unfold relative_errors.
  rewrite lookup_zip_with.
  rewrite (gather_lookup _ _ _ _ _ Hk He), (gather_lookup _ _ _ _ _ Hk Hp).
  reflexivity.
Qed.

(** C1.  On arrays of one length, when at least three stars pass the
    cut [obsplx/errplx >= 1/0.175] and the relative errors of the
    selected stars lie in the domain of the table, the call returns
    having printed the report of two arrays: the k-th selected star, of
    parallax p, parallax error e and magnitude m, has naive absolute
    magnitude [m + 5*log10(p) - 10.0] and corrected magnitude that
    value plus the quadratic interpolation of the eight-point table at
    [e/p]; the two "Mean and sigma" lines carry numpy's mean and
    standard deviation of exactly these arrays. *)
Theorem naive_lum_estimate_per_star obsplx errplx obsmag errmag w :
  length errplx = length obsplx -> length obsmag = length obsplx ->
  (3 <= length (goodplx obsplx errplx))%nat ->
  forallb in_table_domain (relative_errors obsplx errplx (goodplx obsplx errplx)) = true ->
  exists absMagNaive absMagNaiveCorrected,
    naive_lum_estimate obsplx errplx obsmag errmag w =
      (Ok tt,
       [ Print [Str "Number of 'good' parallaxes used ";
                Int (Z.of_nat (length (goodplx obsplx errplx))); Str "/";
                Int (Z.of_nat (length obsplx))];
         Print [Str "### Naive estimate ###"];
         Print [Str "Mean and sigma: "; F2 (np_mean absMagNaive); Str ", ";
                F2 (np_std absMagNaive)];
         Print [Str "### Naive estimate after LK correction ###"];
         Print [Str "Mean and sigma: "; F2 (np_mean absMagNaiveCorrected); Str ", ";
                F2 (np_std absMagNaiveCorrected)] ],
       w)
    /\ length absMagNaive = length (goodplx obsplx errplx)
    /\ length absMagNaiveCorrected = length (goodplx obsplx errplx)
    /\ (forall i, i ∈ goodplx obsplx errplx <->
                  exists p e, obsplx !! i = Some p /\ errplx !! i = Some e /\
                              PrimFloat.leb (1 / 0.175) (p / e) = true)
    /\ forall k i p e m,
         goodplx obsplx errplx !! k = Some i ->
         obsplx !! i = Some p -> errplx !! i = Some e -> obsmag !! i = Some m ->
         absMagNaive !! k = Some (m + 5 * np_log10 p - 10.0)%float /\
         absMagNaiveCorrected !! k =
           Some (m + 5 * np_log10 p - 10.0 + lk_value (e / p))%float.
Proof.
  intros Hlen Hmag Hthree Hdom.
  set (good := goodplx obsplx errplx) in *.
  exists (naive_values obsplx obsmag good).
  exists (zip_with PrimFloat.add (naive_values obsplx obsmag good)
            (map lk_value (relative_errors obsplx errplx good))).
  split; [|split; [|split; [|split]]].
  - rewrite naive_lum_estimate_eval by done. fold good. cbv zeta.
    apply Nat.leb_le in Hthree. rewrite Hthree.
    rewrite (lk_correction_in_domain _ _ Hdom). reflexivity.
  - apply naive_values_length.
  - rewrite length_zip_with, length_map, naive_values_length, relative_errors_length. lia.
  - intros i. apply goodplx_elem.
  - intros k i p e m Hk Hp He Hm. split.
    + eapply naive_values_lookup; eauto.
    + rewrite lookup_zip_with, list_lookup_fmap.
      rewrite (naive_values_lookup _ _ _ _ _ _ _ Hk Hp Hm).
      rewrite (relative_errors_lookup _ _ _ _ _ _ _ Hk Hp He). reflexivity.
Qed.

(** C8, at the failing input.  All three parallax errors are positive
    and all three stars pass the cut, the first one because
    8.17260580978727/1.4302060167127721 rounds to the double 1/0.175;
    its relative error 1.4302060167127721/8.17260580978727 rounds to
    0.17500000000000002, above the last knot 0.175 of the table, and
    the call raises ValueError from the interpolation, having printed
    nothing. *)
Theorem lk_domain_rounding_edge w :
  forallb (PrimFloat.ltb 0) [1.4302060167127721; 1.0; 1.0]%float = true /\
  good_parallax 8.17260580978727 1.4302060167127721 = true /\
  PrimFloat.ltb 0.175 (1.4302060167127721 / 8.17260580978727) = true /\
  goodplx [8.17260580978727; 20.0; 40.0]%float [1.4302060167127721; 1.0; 1.0]%float
    = [0; 1; 2]%nat /\
  naive_lum_estimate
    [8.17260580978727; 20.0; 40.0]%float [1.4302060167127721; 1.0; 1.0]%float
    [12.5; 12.5; 11.0]%float [0.01; 0.01; 0.01]%float w
  = (Raise ValueError, [], w).
Proof.
  repeat split; vm_compute; reflexivity.
Qed.

(** C9.  The magnitude errors play no part: two calls that differ only
    in [errmag] take the same branch, print the same lines and end in
    the same way. *)
Theorem naive_lum_estimate_ignores_errmag obsplx errplx obsmag errmag errmag' w :
  naive_lum_estimate obsplx errplx obsmag errmag w =
  naive_lum_estimate obsplx errplx obsmag errmag' w.
Proof.
  (* the body never reads its fourth argument *)
  unfold naive_lum_estimate. reflexivity.
Qed.

End NaiveEstimate.

Section NaiveEstimateDemo.

#[local] Existing Instance Demo.libs.

(** C1 on the stand-in survey: three stars, all selected. *)
Lemma naive_lum_estimate_per_star_demo :
  exists absMagNaive absMagNaiveCorrected,
    naive_lum_estimate (L := Demo.libs)
      [20.0; 40.0; 12.5]%float [1.0; 1.0; 1.0]%float
      [11.5; 11.0; 11.9]%float [0.01; 0.01; 0.01]%float 0%nat =
      (Ok tt,
       [ Print [Str "Number of 'good' parallaxes used ";
                Int (Z.of_nat (length (goodplx [20.0; 40.0; 12.5]%float [1.0; 1.0; 1.0]%float)));
                Str "/"; Int (Z.of_nat (length [20.0; 40.0; 12.5]%float))];
         Print [Str "### Naive estimate ###"];
         Print [Str "Mean and sigma: "; F2 (np_mean absMagNaive); Str ", ";
                F2 (np_std absMagNaive)];
         Print [Str "### Naive estimate after LK correction ###"];
         Print [Str "Mean and sigma: "; F2 (np_mean absMagNaiveCorrected); Str ", ";
                F2 (np_std absMagNaiveCorrected)] ],
       0%nat)
    /\ length absMagNaive = length (goodplx [20.0; 40.0; 12.5]%float [1.0; 1.0; 1.0]%float)
    /\ length absMagNaiveCorrected =
       length (goodplx [20.0; 40.0; 12.5]%float [1.0; 1.0; 1.0]%float)
    /\ (forall i, i ∈ goodplx [20.0; 40.0; 12.5]%float [1.0; 1.0; 1.0]%float <->
                  exists p e, [20.0; 40.0; 12.5]%float !! i = Some p /\
                              [1.0; 1.0; 1.0]%float !! i = Some e /\
                              PrimFloat.leb (1 / 0.175) (p / e) = true)
    /\ forall k i p e m,
         goodplx [20.0; 40.0; 12.5]%float [1.0; 1.0; 1.0]%float !! k = Some i ->
         [20.0; 40.0; 12.5]%float !! i = Some p ->
         [1.0; 1.0; 1.0]%float !! i = Some e ->
         [11.5; 11.0; 11.9]%float !! i = Some m ->
         absMagNaive !! k = Some (m + 5 * np_log10 p - 10.0)%float /\
         absMagNaiveCorrected !! k =
           Some (m + 5 * np_log10 p - 10.0 + lk_value (e / p))%float.
Proof.
  apply (naive_lum_estimate_per_star (L := Demo.libs)).
  - reflexivity.
  - reflexivity.
  - vm_compute. lia.
  - vm_compute. reflexivity.
Defined.

(** C4, the claim as written fails: with two stars no estimate is made,
    the call prints "Cannot make naive estimate". *)
Lemma naive_lum_estimate_two_stars :
  naive_lum_estimate (L := Demo.libs)
    [20.0; 40.0]%float [1.0; 1.0]%float [11.5; 11.0]%float [0.01; 0.01]%float 0%nat
  = (Ok tt, [Print [Str "Cannot make naive estimate"]], 0%nat)
  /\ ~ makes_estimate
       (naive_lum_estimate (L := Demo.libs)
          [20.0; 40.0]%float [1.0; 1.0]%float [11.5; 11.0]%float [0.01; 0.01]%float 0%nat).
Proof.
  assert (E : naive_lum_estimate (L := Demo.libs)
                [20.0; 40.0]%float [1.0; 1.0]%float [11.5; 11.0]%float
                [0.01; 0.01]%float 0%nat
              = (Ok tt, [Print [Str "Cannot make naive estimate"]], 0%nat))
    by (vm_compute; reflexivity).
  split; [exact E|].
  rewrite E. intros [_ (n & total & naive & corrected & H)]. discriminate H.
Qed.

End NaiveEstimateDemo.

(** ** Binary64 facts about the cut *)

Section FloatFacts.

(** The result of rounding carries the sign it is given. *)
Lemma binary_round_aux_sign s m e l :
  let r := binary_round_aux prec emax s m e l in
  r = S754_nan \/ r = S754_zero s \/ r = S754_infinity s \/
  exists m' e', r = S754_finite s m' e'.
Proof.
  cbv zeta. unfold binary_round_aux.
  destruct (shr_fexp prec emax m e l) as [mrs' e'].
  destruct (shr_fexp prec emax _ e' loc_Exact) as [mrs'' e''].
  destruct (shr_m mrs''); [auto | | auto].
  destruct (Z.leb _ _); eauto 6.
Qed.

Lemma cut_threshold :
  exists m e, Prim2SF (1 / lk_relative_error_limit) = S754_finite false m e.
Proof. eexists _, _. vm_compute. reflexivity. Qed.

Lemma Prim2SF_zero : Prim2SF 0 = S754_zero false.
Proof. vm_compute. reflexivity. Qed.

(** What the cut of line 38 says about the two operands. *)
Lemma good_parallax_operands p e :
  good_parallax p e = true ->
  exists s,
    (Prim2SF p = S754_infinity s \/ exists m x, Prim2SF p = S754_finite s m x) /\
    (Prim2SF e = S754_zero s \/ exists m x, Prim2SF e = S754_finite s m x).
Proof.
  unfold good_parallax. rewrite leb_spec.
  destruct cut_threshold as (mq & eq & ->).
  rewrite div_spec. unfold SF64div.
  destruct (Prim2SF p) as [sp|sp| |sp mp xp], (Prim2SF e) as [se|se| |se me xe];
    cbn; try discriminate.
  all: try (destruct sp, se; cbn; try discriminate; eauto 10).
  (* finite operands of opposite signs: the quotient carries the sign minus *)
  all: destruct (SFdiv_core_binary prec emax (Zpos mp) xp (Zpos me) xe) as [[mz ez] lz];
    destruct (binary_round_aux_sign true mz ez lz) as [H|[H|[H|(m' & e' & H)]]];
    rewrite H; cbn; discriminate.
Qed.

Lemma SFltb_zero_r_nonneg x :
  (x = S754_nan \/ x = S754_zero false \/ x = S754_infinity false \/
   exists m e, x = S754_finite false m e) ->
  SFltb x (S754_zero false) = false.
Proof. intros [->|[->|[->|(m & e & ->)]]]; reflexivity. Qed.

(** A selected star has a relative error that is not below the first
    knot of the table. *)
Lemma good_parallax_lower p e :
  good_parallax p e = true -> PrimFloat.ltb (e / p) 0 = false.
Proof.
  intros (s & Hp & He)%good_parallax_operands.
  rewrite ltb_spec, div_spec, Prim2SF_zero. unfold SF64div.
  apply SFltb_zero_r_nonneg.
  destruct Hp as [->|(mp & xp & ->)], He as [->|(me & xe & ->)]; cbn;
    rewrite ?xorb_nilpotent; auto.
  destruct (SFdiv_core_binary prec emax (Zpos me) xe (Zpos mp) xp) as [[mz ez] lz].
  apply binary_round_aux_sign.
Qed.

Lemma good_parallax_positive p e :
  PrimFloat.ltb 0 e = true -> good_parallax p e = true -> PrimFloat.ltb 0 p = true.
Proof.
  intros Hpos (s & Hp & He)%good_parallax_operands.
  rewrite ltb_spec, Prim2SF_zero in *.
  destruct He as [He|(me & xe & He)]; rewrite He in Hpos; [discriminate|].
  destruct s; [discriminate|].
  destruct Hp as [->|(mp & xp & ->)]; reflexivity.
Qed.

Lemma good_parallax_not_nan p e :
  good_parallax p e = true -> is_nan p = false /\ is_nan e = false.
Proof.
  intros (s & Hp & He)%good_parallax_operands.
  unfold is_nan. rewrite !FloatAxioms.eqb_spec.
  split; apply negb_false_iff.
  - destruct Hp as [->|(mp & xp & ->)]; unfold SFeqb; cbn; destruct s; cbn;
      rewrite ?Z.compare_refl, ?Pos.compare_cont_refl; reflexivity.
  - destruct He as [->|(me & xe & ->)]; unfold SFeqb; cbn; destruct s; cbn;
      rewrite ?Z.compare_refl, ?Pos.compare_cont_refl; reflexivity.
Qed.
End FloatFacts.


(** ** More on the naive estimator *)

Section NaiveEstimateMore.

Context {L : Libs}.

Lemma rmapM_length {A B} (f : A -> result B) l l' :
  rmapM f l = Ok l' -> length l' = length l.
Proof.
  revert l'. induction l as [|x l IH]; intros l' H; cbn in H.
  - now inversion H.
  - destruct (f x); [|discriminate]. cbn in H.
    destruct (rmapM f l); [|discriminate]. cbn in H. inversion H. cbn.
    now rewrite (IH _ eq_refl).
Qed.

Lemma take_length (a : list float) idx l :
  Np.take a idx = Ok l -> length l = length idx.
Proof. apply rmapM_length. Qed.

Lemma take_outcome (a : list float) idx :
  (Np.take a idx = Ok (gather a idx) /\ forall i, i ∈ idx -> (i < length a)%nat) \/
  (Np.take a idx = Raise IndexError /\ exists i, i ∈ idx /\ (length a <= i)%nat).
Proof.
  induction idx as [|i idx IH].
  - left. split; [reflexivity|]. intros i Hi. inversion Hi.
  - unfold Np.take in *. cbn [rmapM].
    destruct (a !! i) as [x|] eqn:Hi.
    + destruct IH as [[-> Hin]|[-> (j & Hj & Hout)]]; cbn.
      * left. unfold gather. cbn. rewrite Hi. split; [reflexivity|].
        intros j [->|Hj]%elem_of_cons; [eapply lookup_lt_Some; eauto | auto].
      * right. split; [reflexivity|]. exists j. split; [now right | done].
    + right. cbn. split; [reflexivity|]. exists i. split; [left|].
      now apply lookup_ge_None.
Qed.

Lemma where_from_length cond i : (length (Np.where_from i cond) <= length cond)%nat.
Proof.
  revert i. induction cond as [|b cond IH]; intros i; cbn; [lia|].
  specialize (IH (S i)). destruct b; cbn; lia.
Qed.

Lemma where_from_NoDup cond i : NoDup (Np.where_from i cond).
Proof.
  revert i. induction cond as [|b cond IH]; intros i; cbn; [constructor|].
  destruct b; [|apply IH]. constructor; [|apply IH].
  rewrite where_from_elem. intros (j & Hj & _). lia.
Qed.

Lemma bounded_NoDup_length (l : list nat) n :
  NoDup l -> (forall i, i ∈ l -> (i < n)%nat) -> (length l <= n)%nat.
Proof.
  intros Hnd Hlt. rewrite <- (length_seq n 0).
  apply submseteq_length, NoDup_submseteq; [done|].
  intros i Hi. apply elem_of_seq. specialize (Hlt i Hi). lia.
Qed.

Lemma broadcast_outcome op (a b : list float) :
  (exists c, Np.broadcast op a b = Ok c) \/ Np.broadcast op a b = Raise ValueError.
Proof.
  unfold Np.broadcast. destruct (_ =? _)%nat; [eauto|].
  destruct a as [|x [|]], b as [|y [|]]; eauto.
Qed.

Lemma scipy_call_outcome spl f x_new :
  (exists y, Scipy.call spl f x_new = Ok y) \/ Scipy.call spl f x_new = Raise ValueError.
Proof.
  unfold Scipy.call.
  repeat match goal with
         | |- context [match ?c with _ => _ end] => destruct c
         end; eauto.
Qed.

(** X1.  Whatever the four arrays, a call ends in one of three ways and
    in the world it started in: it raises before printing anything; or
    it prints the single line "Cannot make naive estimate"; or it prints
    the five lines of the estimate, for a number of stars that is at
    least three and at most the number of parallaxes given. *)
Theorem naive_lum_estimate_all_or_nothing obsplx errplx obsmag errmag w :
  (exists e, naive_lum_estimate obsplx errplx obsmag errmag w = (Raise e, [], w)) \/
  naive_lum_estimate obsplx errplx obsmag errmag w =
    (Ok tt, [Print [Str "Cannot make naive estimate"]], w) \/
  (exists n naive corrected,
     naive_lum_estimate obsplx errplx obsmag errmag w =
       (Ok tt, estimate_report n (length obsplx) naive corrected, w) /\
     (3 <= n <= length obsplx)%nat).
Proof.
  unfold naive_lum_estimate, bind, lift, print, emit.
  destruct (Np.divide obsplx errplx) as [ratio|e]; [|eauto].
  cbv zeta. set (good := Np.where_ _).
  destruct (3 <=? length good)%nat eqn:Hthree; [|auto].
  apply Nat.leb_le in Hthree.
  destruct (take_outcome obsmag good) as [[-> _]|[-> _]]; [|eauto].
  destruct (take_outcome obsplx good) as [[-> Hin]|[-> _]]; [|eauto].
  destruct (Np.add _ _) as [s|e]; [|eauto].
  destruct (take_outcome errplx good) as [[-> _]|[-> _]]; [|eauto].
  destruct (Np.divide _ _) as [relerr|e]; [|eauto].
  destruct (Scipy.call _ _ _) as [corr|e]; [|eauto].
  destruct (Np.add _ corr) as [corrected|e]; [|eauto].
  right. right. eexists _, _, _. split; [reflexivity|].
  rewrite gather_length. split; [done|].
  apply bounded_NoDup_length; [apply where_from_NoDup | done].
Qed.

(** X2.  With fewer than three parallaxes (none at all included) no
    estimate is made, whatever the values and the other two arrays: the
    call prints "Cannot make naive estimate" and returns. *)
Theorem naive_lum_estimate_few_stars obsplx errplx obsmag errmag w :
  length errplx = length obsplx -> (length obsplx < 3)%nat ->
  naive_lum_estimate obsplx errplx obsmag errmag w =
    (Ok tt, [Print [Str "Cannot make naive estimate"]], w).
Proof.
  intros Hlen Hfew. unfold naive_lum_estimate, Np.divide, bind, lift, print, emit.
  rewrite broadcast_same_length by done. cbv zeta.
  set (good := Np.where_ _).
  assert (Hgood : (length good <= length obsplx)%nat).
  { unfold good, Np.where_.
    etransitivity; [apply where_from_length|].
    rewrite length_map, length_zip_with. lia. }
  assert (Hno : (3 <=? length good)%nat = false) by (apply Nat.leb_gt; lia).
  now rewrite Hno.
Qed.

(** X3.  Parallaxes and parallax errors of different lengths, neither of
    length one, cannot be divided element by element: the call raises
    ValueError and prints nothing. *)
Theorem naive_lum_estimate_shape_mismatch obsplx errplx obsmag errmag w :
  length obsplx <> length errplx ->
  length obsplx <> 1%nat -> length errplx <> 1%nat ->
  naive_lum_estimate obsplx errplx obsmag errmag w = (Raise ValueError, [], w).
Proof.
  intros Hne Ho He. unfold naive_lum_estimate, Np.divide, Np.broadcast, bind, lift.
  apply Nat.eqb_neq in Hne. rewrite Hne.
  destruct obsplx as [|? [|? ?]], errplx as [|? [|? ?]]; cbn in *; done.
Qed.

(** X4.  When the cut selects at least three indices and one of them is
    out of bounds for the magnitudes, the parallaxes or the parallax
    errors (as happens when one array of length one is broadcast against
    a longer one), the call raises IndexError and prints nothing. *)
Theorem naive_lum_estimate_index_error obsplx errplx obsmag errmag ratio w :
  Np.divide obsplx errplx = Ok ratio ->
  let good :=
    Np.where_ (map (fun r => PrimFloat.leb (1 / lk_relative_error_limit) r) ratio) in
  (3 <= length good)%nat ->
  (exists i, i ∈ good /\
     (length obsmag <= i \/ length obsplx <= i \/ length errplx <= i)%nat) ->
  naive_lum_estimate obsplx errplx obsmag errmag w = (Raise IndexError, [], w).
Proof.
  intros Hratio good Hthree (i & Hi & Hout).
  unfold naive_lum_estimate, bind, lift. rewrite Hratio. cbv zeta. fold good.
  apply Nat.leb_le in Hthree. rewrite Hthree.
  destruct (take_outcome obsmag good) as [[-> Hmag]|[-> _]]; [|reflexivity].
  destruct (take_outcome obsplx good) as [[-> Hplx]|[-> _]]; [|reflexivity].
  rewrite (broadcast_same_length PrimFloat.add)
    by (rewrite length_map, !gather_length; done).
  destruct (take_outcome errplx good) as [[-> Herr]|[-> _]]; [|reflexivity].
  exfalso. specialize (Hmag i Hi). specialize (Hplx i Hi). specialize (Herr i Hi). lia.
Qed.

(** X5.  What passing the cut means for one star, in binary64
    arithmetic: neither its parallax nor its parallax error is NaN; its
    relative error [err/plx] is not below 0, the first knot of the
    table; and when its parallax error is positive so is its parallax. *)
Theorem good_parallax_sound plx err :
  good_parallax plx err = true ->
  is_nan plx = false /\ is_nan err = false /\
  PrimFloat.ltb (err / plx) 0 = false /\
  (PrimFloat.ltb 0 err = true -> PrimFloat.ltb 0 plx = true).
Proof.
  intros Hgood. destruct (good_parallax_not_nan _ _ Hgood) as [Hp He].
  repeat split; auto using good_parallax_lower.
  intros Hpos. eapply good_parallax_positive; eauto.
Qed.

Lemma relative_errors_elem obsplx errplx x :
  x ∈ relative_errors obsplx errplx (goodplx obsplx errplx) ->
  length errplx = length obsplx ->
  exists i p e, i ∈ goodplx obsplx errplx /\ obsplx !! i = Some p /\
                errplx !! i = Some e /\ x = (e / p)%float.
Proof.
  intros Hx Hlen. apply list_elem_of_lookup in Hx as [k Hk].
  assert (Hk' : (k < length (goodplx obsplx errplx))%nat).
  { apply lookup_lt_Some in Hk. now rewrite relative_errors_length in Hk. }
  destruct (lookup_lt_is_Some_2 _ _ Hk') as [i Hi].
  assert (Hin : i ∈ goodplx obsplx errplx) by (eapply list_elem_of_lookup_2; eauto).
  destruct (proj1 (goodplx_elem _ _ _) Hin) as (p & e & Hp & He & _).
  exists i, p, e. repeat split; auto.
  rewrite (relative_errors_lookup _ _ _ _ _ _ _ Hi Hp He) in Hk. congruence.
Qed.

Lemma lk_correction_call spl (x_new : list float) :
  Scipy.call spl lk_correction x_new =
  if existsb (fun v => PrimFloat.ltb v 0) x_new then Raise ValueError
  else if existsb (fun v => PrimFloat.ltb 0.175 v) x_new then Raise ValueError
  else Ok (map (spl (Scipy.ip_kind lk_correction) (Scipy.ip_x lk_correction)
                  (Scipy.ip_y lk_correction)) x_new).
Proof.
  unfold Scipy.call.
  change (head (Scipy.ip_x lk_correction)) with (head (Np.linspace 0 0.175 8)).
  change (last (Scipy.ip_x lk_correction)) with (last (Np.linspace 0 0.175 8)).
  replace (head (Np.linspace 0 0.175 8)) with (Some 0%float) by (vm_compute; reflexivity).
  replace (last (Np.linspace 0 0.175 8)) with (Some 0.175%float) by (vm_compute; reflexivity).
  reflexivity.
Qed.

(** X6.  On three arrays of one length a call can fail in one way only:
    with ValueError, because some selected star has a relative error
    that rounds above 0.175, the last knot of the table. *)
Theorem naive_lum_estimate_failure_mode obsplx errplx obsmag errmag w ex :
  length errplx = length obsplx -> length obsmag = length obsplx ->
  outcome (naive_lum_estimate obsplx errplx obsmag errmag) w = Raise ex ->
  ex = ValueError /\
  exists i p e,
    i ∈ goodplx obsplx errplx /\ obsplx !! i = Some p /\ errplx !! i = Some e /\
    good_parallax p e = true /\ PrimFloat.ltb 0.175 (e / p) = true.
Proof.
  intros Hlen Hmag. unfold outcome.
  rewrite naive_lum_estimate_eval by done. cbv zeta.
  destruct (3 <=? _)%nat; [|discriminate].
  set (relerr := relative_errors obsplx errplx (goodplx obsplx errplx)).
  assert (Hlow : existsb (fun v => PrimFloat.ltb v 0) relerr = false).
  { apply existsb_false. intros x Hx.
    destruct (relative_errors_elem _ _ _ Hx Hlen) as (i & p & e & Hi & Hp & He & ->).
    apply good_parallax_lower.
    destruct (proj1 (goodplx_elem _ _ _) Hi) as (p' & e' & Hp' & He' & Hg). congruence. }
  rewrite lk_correction_call, Hlow.
  destruct (existsb (fun v => PrimFloat.ltb 0.175 v) relerr) eqn:Hhigh; [|discriminate].
  intros [= <-]. split; [reflexivity|].
  apply existsb_exists in Hhigh as (x & Hx%list_elem_of_In & Hgt).
  destruct (relative_errors_elem _ _ _ Hx Hlen) as (i & p & e & Hi & Hp & He & ->).
  exists i, p, e. repeat split; auto.
  destruct (proj1 (goodplx_elem _ _ _) Hi) as (p' & e' & Hp' & He' & Hg). congruence.
Qed.

End NaiveEstimateMore.

(** ** The driver *)

Section Driver.

Context {L : Libs}.

#[local] Arguments PrimFloat.is_finite : simpl never.

Lemma range_chains : range 0 numChains = [0; 1; 2; 3]%Z.
Proof. reflexivity. Qed.

Lemma range_subplots : range 1 5 = [1; 2; 3; 4]%Z.
Proof. reflexivity. Qed.

Lemma only_prints_bind {A B} (m : M A) (f : A -> M B) :
  only_prints m -> (forall a, only_prints (f a)) -> only_prints (bind m f).
Proof.
  intros Hm Hf w. specialize (Hm w). unfold trace, bind in *.
  destruct (m w) as [[[a|e] evs] w']; cbn in *; [|done].
  specialize (Hf a w'). unfold trace in Hf.
  destruct (f a w') as [[r evs'] w'']; cbn in *.
  apply Forall_app; split; done.
Qed.

Lemma only_prints_lift {A} (r : result A) : only_prints (lift r).
Proof. intros w. constructor. Qed.

Lemma only_prints_print line : only_prints (print line).
Proof. intros w. repeat constructor. eauto. Qed.

(** The estimator only prints. *)
Lemma naive_lum_estimate_prints obsplx errplx obsmag errmag :
  only_prints (naive_lum_estimate obsplx errplx obsmag errmag).
Proof.
  unfold naive_lum_estimate.
  apply only_prints_bind; [apply only_prints_lift | intros ratio].
  cbv zeta. destruct (3 <=? _)%nat; [|apply only_prints_print].
  repeat (apply only_prints_bind;
          [first [apply only_prints_lift | apply only_prints_print] | intros ?]).
  apply only_prints_print.
Qed.

Lemma omap_prints {B} (f : event -> option B) evs :
  (forall line, f (Print line) = None) ->
  Forall (fun e => exists line, e = Print line) evs ->
  omap f evs = [].
Proof.
  intros Hf. induction 1 as [|e evs [line ->] _ IH]; [done|].
  cbn. now rewrite Hf.
Qed.

Lemma reaches_sampler_true args w :
  reaches_sampler args w = true <->
  nonzero (distMax args) /\ nonzero (distMin args) /\
  (volumecomplete args = false -> drawable args (generated_survey args w).1 = true).
Proof.
  unfold reaches_sampler, nonzero.
  rewrite !andb_true_iff, !negb_true_iff, orb_true_iff.
  destruct (volumecomplete args); intuition congruence.
Qed.

(** Symbolic execution of the driver: unfold the script, name the
    result of each library call and of the estimator [est], split on the
    flags and on the tests the script makes. *)
Ltac name_call est :=
  match goal with
  | |- context [PrimFloat.eqb ?x 0%float] => destruct (PrimFloat.eqb x 0%float) eqn:?
  | |- context [setRandomNumberSeed ?a ?b ?c] =>
      destruct (setRandomNumberSeed a b c) as [? ?] eqn:?
  | |- context [generateObservations ?a ?b] =>
      destruct (generateObservations a b) as [? ?] eqn:?
  | |- context [PrimFloat.is_finite ?x] => destruct (PrimFloat.is_finite x) eqn:?
  | |- context [random_uniform ?a ?b ?c ?d] =>
      destruct (random_uniform a b c d) as [? ?] eqn:?
  | |- context [stan_sampling ?a ?b ?c ?d ?e ?f ?g ?h ?i] =>
      destruct (stan_sampling a b c d e f g h i) as [? ?] eqn:?
  | |- context [est ?a ?b ?c ?d ?w] =>
      destruct (est a b c d w) as [[[[]|?] ?] ?] eqn:?
  | |- context [posterior_samples ?f] =>
      destruct (posterior_samples f) as [?|?] eqn:?
  | |- context [volumecomplete ?a] => destruct (volumecomplete a) eqn:?
  | |- context [noplots ?a] => destruct (noplots a) eqn:?
  | |- context [surveyplot ?a] => destruct (surveyplot a) eqn:?
  end.

Ltac run_script_with est :=
  unfold trace, outcome, reaches_sampler, drawable, initial_value_bounds,
    run_luminosity_inference, run_luminosity_inference_with, generated_survey,
    call_load_stan_code, call_stan_cache, call_sampling, call_random_uniform, float_div;
  repeat match goal with
         | H : nonzero _ |- _ => unfold nonzero in H; rewrite ?H; clear H
         end;
  rewrite ?range_chains, ?range_subplots;
  repeat (unfold bind, lift, emit, print, ret, world_call; cbn; name_call est);
  unfold bind, lift, emit, print, ret, world_call; cbn;
  simplify_eq;
  repeat match goal with
         | H1 : ?call = _, H2 : ?call = _ |- _ => rewrite H1 in H2; simplify_eq
         end.

Ltac run_script := run_script_with (@naive_lum_estimate L).

Ltac drop_prints :=
  repeat match goal with
         | H : naive_lum_estimate ?a ?b ?c ?d ?w = (_, ?l, _) |- _ =>
             lazymatch goal with
             | Hp : Forall _ l |- _ => fail
             | _ =>
                 let Hp := fresh "Hprints" in
                 pose proof (naive_lum_estimate_prints a b c d w) as Hp;
                 unfold trace in Hp; rewrite H in Hp; cbn [fst snd] in Hp
             end
         end;
  repeat match goal with
         | H : Forall _ ?l |- context [omap ?f (?l ++ ?r)] =>
             rewrite (omap_app f l r), (omap_prints f l (fun _ => eq_refl) H)
         | H : Forall _ ?l |- context [omap ?f ?l] =>
             rewrite (omap_prints f l (fun _ => eq_refl) H)
         end; cbn.

(** A run that gets as far as the sampler calls it once; a run that
    does not, never. *)
Lemma sampler_called args w :
  reaches_sampler args w = true ->
  exists c, samplings (trace (run_luminosity_inference args) w) = [c].
Proof.
  intros (Hmax & Hmin & Hdraw)%reaches_sampler_true. revert Hdraw.
  unfold samplings.
  run_script; drop_prints; intros Hdraw; try (specialize (Hdraw eq_refl); discriminate);
    eauto.
Qed.

Lemma sampler_not_called args w :
  reaches_sampler args w = false ->
  samplings (trace (run_luminosity_inference args) w) = [].
Proof.
  unfold samplings. run_script; drop_prints; intros Hno; solve [reflexivity | discriminate].
Qed.

(** C3.  Every dictionary of data that a run hands to the sampler has
    exactly the keys minDist, maxDist, N, obsPlx, errObsPlx, obsMag and
    errObsMag, bound to the two distance bounds and to the generated
    survey's number of stars and four arrays; without the
    [volumecomplete] flag it has the key surveyLimit besides, bound to
    the survey's apparent magnitude limit.  A run that gets as far as
    the sampler hands it one such dictionary. *)
Theorem sampler_data args w :
  let tr := trace (run_luminosity_inference args) w in
  let survey := (generated_survey args w).1 in
  (forall c, c ∈ samplings tr ->
     dom (sc_data c) =
       (if volumecomplete args then common_keys else common_keys ∪ {[ "surveyLimit" ]}) /\
     sc_data c !! "minDist" = Some (PyFloat (distMin args)) /\
     sc_data c !! "maxDist" = Some (PyFloat (distMax args)) /\
     sc_data c !! "N" = Some (PyInt (numberOfStarsInSurvey survey)) /\
     sc_data c !! "obsPlx" = Some (PyArray (observedParallaxes survey)) /\
     sc_data c !! "errObsPlx" = Some (PyArray (parallaxErrors survey)) /\
     sc_data c !! "obsMag" = Some (PyArray (observedMagnitudes survey)) /\
     sc_data c !! "errObsMag" = Some (PyArray (magnitudeErrors survey)) /\
     (volumecomplete args = false ->
      sc_data c !! "surveyLimit" = Some (PyFloat (apparentMagnitudeLimit survey)))) /\
  (reaches_sampler args w = true -> exists c, samplings tr = [c]).
Proof.
  cbv zeta. split; [|apply sampler_called].
  intros c. unfold samplings.
  run_script; drop_prints; intros Hc;
    repeat (apply elem_of_cons in Hc as [->|Hc]); try solve [inversion Hc];
    cbn [sc_data];
    (split; [unfold common_keys; rewrite !dom_insert_L, dom_singleton_L; set_solver|]);
    repeat split; done.
Qed.

Lemma transpose_pair (a b : list float) :
  length b = length a ->
  Np.transpose [a; b] = zip_with (fun x y => [x; y]) a b.
Proof.
  unfold Np.transpose. revert b.
  induction a as [|x a IH]; intros [|y b] Hlen; try discriminate; [reflexivity|].
  cbn [length seq map zip_with]. f_equal.
  rewrite <- seq_shift, map_map. apply IH. now injection Hlen.
Qed.

(** Line 119 on any fit: the rows of the array are the pairs of a
    meanAbsMag draw and the sigmaAbsMag draw of the same rank. *)
Lemma posterior_samples_columns fit :
  posterior_samples fit =
  if (length (extract fit "sigmaAbsMag") =? length (extract fit "meanAbsMag"))%nat
  then Ok (zip_with (fun m s => [m; s]) (extract fit "meanAbsMag")
             (extract fit "sigmaAbsMag"))
  else Raise ValueError.
Proof.
  unfold posterior_samples, Np.vstack. cbn [forallb]. rewrite andb_true_r.
  destruct (_ =? _)%nat eqn:E; [|reflexivity].
  apply Nat.eqb_eq in E. cbn [rbind]. now rewrite transpose_pair.
Qed.

(** C5.  Every sampler call of a run asks for the parameters meanAbsMag
    and sigmaAbsMag, and the fit it returns is the one fit the run
    prints.  The array of samples assembled from a printed fit has two
    columns, the meanAbsMag draws and the sigmaAbsMag draws (the
    assembling raises ValueError when the two differ in length); it is
    the array any corner plot of the run is given, and a run that
    goes through to its end has assembled it.  A run that gets as far
    as the sampler calls it once. *)
Theorem posterior_quantities args w :
  let tr := trace (run_luminosity_inference args) w in
  (forall c, c ∈ samplings tr ->
     sc_pars c = ["meanAbsMag"; "sigmaAbsMag"] /\
     exists w',
       printed_fits tr =
         [(stan_sampling (sc_model c) (sc_data c) (sc_pars c) (sc_iter c) (sc_chains c)
             (sc_thin c) (sc_seed c) (sc_init c) w').1]) /\
  (forall fit, fit ∈ printed_fits tr ->
     posterior_samples fit =
       (if (length (extract fit "sigmaAbsMag") =? length (extract fit "meanAbsMag"))%nat
        then Ok (zip_with (fun m s => [m; s]) (extract fit "meanAbsMag")
                   (extract fit "sigmaAbsMag"))
        else Raise ValueError) /\
     (forall cc, cc ∈ corner_plots tr -> posterior_samples fit = Ok (cc_samples cc)) /\
     (outcome (run_luminosity_inference args) w = Ok tt ->
      exists samples, posterior_samples fit = Ok samples)) /\
  (reaches_sampler args w = true -> exists c, samplings tr = [c]).
Proof.
  cbv zeta. split; [|split; [|apply sampler_called]].
  - intros c. unfold samplings, printed_fits.
    run_script; drop_prints; intros Hc;
      repeat (apply elem_of_cons in Hc as [->|Hc]); try solve [inversion Hc];
      (split; [reflexivity|]); cbn;
      match goal with
      | H : stan_sampling _ _ _ _ _ _ _ _ ?w' = _ |- _ => exists w'; now rewrite H
      end.
  - intros fit Hfit. split; [apply posterior_samples_columns|]. revert Hfit.
    unfold printed_fits, corner_plots.
    run_script; drop_prints; intros Hfit;
      repeat (apply elem_of_cons in Hfit as [->|Hfit]); try solve [inversion Hfit];
      repeat match goal with
             | H1 : ?call = _, H2 : ?call = _ |- _ => rewrite H1 in H2; simplify_eq
             end;
      (split; [intros cc Hcc; repeat (apply elem_of_cons in Hcc as [->|Hcc]);
               solve [done | inversion Hcc]
              | intros Hout; solve [discriminate Hout | eauto]]).
Qed.

(** What a run does from the sampler call on, whatever function the
    module binds to the name [naive_lum_estimate]: the fit is printed
    between two empty lines, the function is called on the four arrays
    of the generated survey, and if it returns the samples are
    assembled and, unless [noplots] is set, drawn. *)
Lemma run_after_sampling est args w c rest :
  after_sampling (trace (run_luminosity_inference_with est args) w) = Some (c, rest) ->
  let survey := (generated_survey args w).1 in
  let call :=
    est (observedParallaxes survey) (parallaxErrors survey)
      (observedMagnitudes survey) (magnitudeErrors survey) in
  exists fit w',
    (sc_data c !! "obsPlx" = Some (PyArray (observedParallaxes survey)) /\
     sc_data c !! "errObsPlx" = Some (PyArray (parallaxErrors survey)) /\
     sc_data c !! "obsMag" = Some (PyArray (observedMagnitudes survey)) /\
     sc_data c !! "errObsMag" = Some (PyArray (magnitudeErrors survey))) /\
    rest = Print [] :: PrintFit fit :: Print [] :: trace call w' ++
           match outcome call w', posterior_samples fit with
           | Ok _, Ok samples =>
               if noplots args then []
               else corner_figure
                      {| cc_samples := samples; cc_labels := ["$\mu_M$"; "$\sigma_M$"];
                         cc_truths := [muM args; sigmaM args]; cc_truth_color := "r";
                         cc_quantiles := [0.16; 0.50; 0.84]%float;
                         cc_show_titles := true |}
           | _, _ => []
           end /\
    outcome (run_luminosity_inference_with est args) w =
      match outcome call w', posterior_samples fit with
      | Ok _, Ok _ => Ok tt
      | Ok _, Raise e => Raise e
      | Raise e, _ => Raise e
      end.
Proof.
  cbv zeta. unfold corner_figure.
  run_script_with est; intros Hafter; try discriminate Hafter;
    injection Hafter as <- <-;
    match goal with
    | Hs : stan_sampling _ _ _ _ _ _ _ _ _ = (?fit, _),
      He : est _ _ _ _ ?w' = _ |- _ =>
        exists fit, w'; unfold trace, outcome; rewrite He; cbn
    end;
    repeat match goal with H : posterior_samples _ = _ |- _ => rewrite H end;
    cbn; rewrite ?app_nil_r;
    (split; [repeat split; done|]); split; try reflexivity.
Qed.

(** A run that gets as far as the sampler has a sampler call in its
    trace, whatever function it calls afterwards. *)
Lemma sampler_reached est args w :
  reaches_sampler args w = true ->
  exists c rest,
    after_sampling (trace (run_luminosity_inference_with est args) w) = Some (c, rest).
Proof.
  intros (Hmax & Hmin & Hdraw)%reaches_sampler_true. revert Hdraw.
  run_script_with est; intros Hdraw;
    try (specialize (Hdraw eq_refl); discriminate); eauto.
Qed.

(** C7.  The naive estimator and the sampler are given one dataset.
    Whatever function [est] the module binds to the name
    [naive_lum_estimate] (the statement holds of every function, also
    of one that reports each of its four arguments), the events that
    follow the sampler call of a run are the printing of the fit and
    then what [est] does when called on the observed parallaxes, the
    parallax errors, the observed magnitudes and the magnitude errors
    of the generated survey, in this order; these are the arrays bound
    to obsPlx, errObsPlx, obsMag and errObsMag in the data of that
    sampler call; and when the call of [est] raises, the run ends there
    with its exception.  A run that gets as far as the sampler has such
    a call. *)
Theorem one_dataset est args w :
  let tr := trace (run_luminosity_inference_with est args) w in
  let survey := (generated_survey args w).1 in
  let call :=
    est (observedParallaxes survey) (parallaxErrors survey)
      (observedMagnitudes survey) (magnitudeErrors survey) in
  (forall c rest, after_sampling tr = Some (c, rest) ->
     (sc_data c !! "obsPlx" = Some (PyArray (observedParallaxes survey)) /\
      sc_data c !! "errObsPlx" = Some (PyArray (parallaxErrors survey)) /\
      sc_data c !! "obsMag" = Some (PyArray (observedMagnitudes survey)) /\
      sc_data c !! "errObsMag" = Some (PyArray (magnitudeErrors survey))) /\
     exists fit w' post,
       rest = Print [] :: PrintFit fit :: Print [] :: trace call w' ++ post /\
       forall e, outcome call w' = Raise e ->
         outcome (run_luminosity_inference_with est args) w = Raise e /\ post = []) /\
  (reaches_sampler args w = true -> exists c rest, after_sampling tr = Some (c, rest)).
Proof.
  cbv zeta. split; [|apply sampler_reached].
  intros c rest Hafter.
  destruct (run_after_sampling est args w c rest Hafter) as (fit & w' & Hdata & Hrest & Hout).
  cbv zeta in Hrest, Hout. split; [exact Hdata|].
  eexists fit, w', _. split; [exact Hrest|].
  intros e He. rewrite Hout, He. split; reflexivity.
Qed.

Lemma corner_figure_plots cc : Forall (fun e => is_plot e = true) (corner_figure cc).
Proof. unfold corner_figure. repeat constructor. Qed.

(** C4, as amended.  After the sampler call a run prints the fit
    between two empty lines and then calls [naive_lum_estimate] on the
    four arrays of the generated survey; only drawing follows.  When
    the arrays have one length the call returns in two cases: when
    fewer than three stars pass the cut [obsplx/errplx >= 1/0.175],
    having printed the line "Cannot make naive estimate" and no
    estimate; when at least three stars pass the cut and their relative
    errors lie in the table's domain, having printed the five lines of
    the estimate, with numpy's mean and standard deviation of the naive
    magnitudes of the selected stars and of these plus the Lutz-Kelker
    corrections at their relative errors. *)
Theorem naive_estimate_of_a_run args w c rest :
  let survey := (generated_survey args w).1 in
  let obsplx := observedParallaxes survey in
  let errplx := parallaxErrors survey in
  let obsmag := observedMagnitudes survey in
  let errmag := magnitudeErrors survey in
  let good := goodplx obsplx errplx in
  let naive := naive_values obsplx obsmag good in
  let relerr := relative_errors obsplx errplx good in
  let corrected := zip_with PrimFloat.add naive (map lk_value relerr) in
  after_sampling (trace (run_luminosity_inference args) w) = Some (c, rest) ->
  length errplx = length obsplx -> length obsmag = length obsplx ->
  exists fit w' post,
    rest = Print [] :: PrintFit fit :: Print [] ::
           trace (naive_lum_estimate obsplx errplx obsmag errmag) w' ++ post /\
    Forall (fun e => is_plot e = true) post /\
    ((length good < 3)%nat ->
       naive_lum_estimate obsplx errplx obsmag errmag w' =
         (Ok tt, [Print [Str "Cannot make naive estimate"]], w')) /\
    ((3 <= length good)%nat -> forallb in_table_domain relerr = true ->
       naive_lum_estimate obsplx errplx obsmag errmag w' =
         (Ok tt, estimate_report (length good) (length obsplx) naive corrected, w')).
Proof.
  cbv zeta. intros Hafter Hlen Hmag.
  destruct (run_after_sampling naive_lum_estimate args w c rest Hafter)
    as (fit & w' & _ & Hrest & _).
  cbv zeta in Hrest.
  match type of Hrest with _ = _ :: _ :: _ :: _ ++ ?p => exists fit, w', p end.
  split; [exact Hrest|]. split; [|split].
  - destruct (outcome _ _); [|apply Forall_nil_2].
    destruct (posterior_samples fit); [destruct (noplots args)|];
      first [apply Forall_nil_2 | apply corner_figure_plots].
  - intros Hfew%Nat.leb_gt. rewrite naive_lum_estimate_eval by done. cbv zeta.
    now rewrite Hfew.
  - intros Hthree%Nat.leb_le Hdom. rewrite naive_lum_estimate_eval by done. cbv zeta.
    now rewrite Hthree, (lk_correction_in_domain _ _ Hdom).
Qed.

Lemma prints_are_no_plots evs :
  Forall (fun e => exists line, e = Print line) evs ->
  Forall (fun e => is_plot e = false) evs.
Proof.
  intros H. eapply Forall_impl; [exact H|]. now intros e [line ->].
Qed.

Lemma draws_length k lo hi n w : length (draws k lo hi n w).1 = k.
Proof.
  revert w. induction k as [|k IH]; intros w; cbn; [done|].
  destruct (random_uniform lo hi n w) as [a w1]. specialize (IH w1).
  destruct (draws k lo hi n w1) as [l w2]. cbn in *. now rewrite IH.
Qed.

(** *** Further properties of the driver *)

Lemma stateless_bind {A B} (m : M A) (f : A -> M B) :
  stateless m -> (forall a, stateless (f a)) -> stateless (bind m f).
Proof.
  intros (r & evs & Hm) Hf. unfold bind.
  destruct r as [a|e].
  - destruct (Hf a) as (r' & evs' & Hfa). exists r', (evs ++ evs').
    intros w. now rewrite Hm, Hfa.
  - exists (Raise e), evs. intros w. now rewrite Hm.
Qed.

Lemma stateless_lift {A} (r : result A) : stateless (lift r).
Proof. now exists r, []. Qed.

Lemma stateless_print line : stateless (print line).
Proof. now exists (Ok tt), [Print line]. Qed.

Lemma naive_lum_estimate_stateless obsplx errplx obsmag errmag :
  stateless (naive_lum_estimate obsplx errplx obsmag errmag).
Proof.
  unfold naive_lum_estimate.
  apply stateless_bind; [apply stateless_lift | intros ratio].
  cbv zeta. destruct (3 <=? _)%nat; [|apply stateless_print].
  repeat (apply stateless_bind;
          [first [apply stateless_lift | apply stateless_print] | intros ?]).
  apply stateless_print.
Qed.

Lemma naive_lum_estimate_outcome_any_world obsplx errplx obsmag errmag w w' :
  outcome (naive_lum_estimate obsplx errplx obsmag errmag) w =
  outcome (naive_lum_estimate obsplx errplx obsmag errmag) w'.
Proof.
  destruct (naive_lum_estimate_stateless obsplx errplx obsmag errmag) as (r & evs & H).
  unfold outcome. now rewrite !H.
Qed.

Lemma filter_prints_no_plots evs :
  Forall (fun e => exists line, e = Print line) evs -> List.filter is_plot evs = [].
Proof. induction 1 as [|e evs [line ->] _ IH]; [done|]. cbn. exact IH. Qed.

(** X7.  A distance bound equal to zero (of either sign) stops the run
    at lines 65-66 with ZeroDivisionError: nothing is printed, no survey
    is generated and the world is left as it was. *)
Theorem zero_distance_bound args w :
  PrimFloat.eqb (distMax args) 0 = true \/ PrimFloat.eqb (distMin args) 0 = true ->
  run_luminosity_inference args w = (Raise ZeroDivisionError, [], w).
Proof.
  intros Hzero. unfold run_luminosity_inference, run_luminosity_inference_with, float_div.
  destruct (PrimFloat.eqb (distMax args) 0) eqn:Hmax; [reflexivity|].
  destruct Hzero as [Hzero|Hzero]; [discriminate|].
  rewrite Hzero. reflexivity.
Qed.

(** X8.  The number of iterations, the thinning and the seed given on
    the command line reach every sampler call of a run unchanged, for
    either kind of survey; a run that gets as far as the sampler calls
    it once. *)
Theorem sampler_settings args w :
  let tr := trace (run_luminosity_inference args) w in
  (forall c, c ∈ samplings tr ->
     sc_iter c = staniter args /\ sc_thin c = stanthin args /\
     sc_seed c = stanseed args) /\
  (reaches_sampler args w = true -> exists c, samplings tr = [c]).
Proof.
  cbv zeta. split; [|apply sampler_called].
  intros c. unfold samplings.
  run_script; drop_prints; intros Hc;
    repeat (apply elem_of_cons in Hc as [->|Hc]); try solve [inversion Hc];
    repeat split; reflexivity.
Qed.

(** X9.  All that a run which goes through with plots on draws, in
    order: the survey statistics if asked for, then one figure of 8 by 8
    with the four subplots of a 2 by 2 grid, the corner plot of the
    samples assembled from the printed fit, with the true mean and sigma
    of the command line as truths, and the display of the figure. *)
Theorem drawing_of_a_run args w :
  noplots args = false ->
  outcome (run_luminosity_inference args) w = Ok tt ->
  let tr := trace (run_luminosity_inference args) w in
  exists fit samples,
    printed_fits tr = [fit] /\ posterior_samples fit = Ok samples /\
    List.filter is_plot tr =
      (if surveyplot args
       then [ShowSurveyStatistics (generated_survey args w).1 "surveyStats.pdf" false]
       else []) ++
      corner_figure
        {| cc_samples := samples; cc_labels := ["$\mu_M$"; "$\sigma_M$"];
           cc_truths := [muM args; sigmaM args]; cc_truth_color := "r";
           cc_quantiles := [0.16; 0.50; 0.84]%float; cc_show_titles := true |}.
Proof.
  intros Hno. cbv zeta. unfold printed_fits, corner_figure.
  run_script; try discriminate; intros Hout; try discriminate; drop_prints;
    eexists _, _; (split; [reflexivity|]); (split; [eassumption|]);
    rewrite ?List.filter_app;
    repeat match goal with
           | H : Forall _ ?l |- context [List.filter is_plot ?l] =>
               rewrite (filter_prints_no_plots l H)
           end; reflexivity.
Qed.

(** X10.  Calls into the libraries taken to return, a run can fail in
    three ways only.  On a zero distance bound it raises
    ZeroDivisionError at lines 65-66, before anything happens.  For the magnitude limited model it raises OverflowError
    at line 101 when the range of the initial values is not finite,
    before any Stan file is loaded and without sampling.  Otherwise it
    has sampled once and printed the fit, and draws no corner plot: it
    fails with the exception the naive estimator raises on the survey's
    arrays, or with ValueError because the two extracted arrays of
    draws differ in length. *)
Theorem run_failure_modes args w ex :
  outcome (run_luminosity_inference args) w = Raise ex ->
  let tr := trace (run_luminosity_inference args) w in
  let survey := (generated_survey args w).1 in
  (ex = ZeroDivisionError /\
   (PrimFloat.eqb (distMax args) 0 = true \/ PrimFloat.eqb (distMin args) 0 = true) /\
   tr = []) \/
  (ex = OverflowError /\ volumecomplete args = false /\ drawable args survey = false /\
   loaded_files tr = [] /\ samplings tr = []) \/
  (length (samplings tr) = 1%nat /\
   corner_plots tr = [] /\
   exists fit,
     printed_fits tr = [fit] /\
     ((exists w',
         outcome (naive_lum_estimate (observedParallaxes survey) (parallaxErrors survey)
                    (observedMagnitudes survey) (magnitudeErrors survey)) w' = Raise ex) \/
      ex = ValueError /\
      length (extract fit "sigmaAbsMag") <> length (extract fit "meanAbsMag"))).
Proof.
  cbv zeta. unfold samplings, loaded_files, printed_fits, corner_plots.
  run_script; intros Hout; try discriminate; drop_prints.
  all: first
    [ left; injection Hout as <-; split; [reflexivity|]; split; [|reflexivity];
      solve [left; reflexivity | right; reflexivity]
    | right; left; injection Hout as <-; repeat split; reflexivity
    | right; right;
      (split; [reflexivity|]); (split; [reflexivity|]); eexists; (split; [reflexivity|]);
      first
        [ left;
          match goal with
          | H : naive_lum_estimate ?a ?b ?c ?d ?w' = (Raise _, _, _) |- _ =>
              exists w'; rewrite H; exact Hout
          end
        | right;
          match goal with
          | H : posterior_samples ?fit = Raise _ |- _ =>
              rewrite posterior_samples_columns in H;
              destruct (_ =? _)%nat eqn:Hlen in H; [discriminate H|];
              apply Nat.eqb_neq in Hlen; split; [congruence | exact Hlen]
          end ] ].
Qed.

(** X12.  Whatever Stan file a run loads, whatever model it caches and
    whatever model it samples from are those chosen by the
    [volumecomplete] flag: the volume-complete file and model name when
    the flag is set, the magnitude-limited ones otherwise.  A run that
    gets as far as the sampler (distance bounds that are not zero and,
    without the flag, a finite range for the initial values) loads one
    file, caches one model and samples from it once. *)
Theorem model_selection args w :
  let tr := trace (run_luminosity_inference args) w in
  let file :=
    if volumecomplete args
    then "luminosity_inference_volume_complete_distance_prior.stan"
    else "luminosity_inference_distance_prior.stan" in
  let name :=
    if volumecomplete args then "luminosityInferenceDistPriorVC"
    else "luminosityInferenceDistPrior" in
  (Forall (fun f => f = file) (loaded_files tr) /\
   Forall (fun cn => cn = (load_stan_code file, name)) (cached_models tr) /\
   Forall (fun c => sc_model c = stan_cache (load_stan_code file) name) (samplings tr)) /\
  (reaches_sampler args w = true ->
   loaded_files tr = [file] /\
   cached_models tr = [(load_stan_code file, name)] /\
   map sc_model (samplings tr) = [stan_cache (load_stan_code file) name]).
Proof.
  cbv zeta. split.
  - unfold loaded_files, cached_models, samplings.
    run_script; drop_prints; repeat split; repeat constructor.
  - intros (Hmax & Hmin & Hdraw)%reaches_sampler_true. revert Hdraw.
    unfold loaded_files, cached_models, samplings.
    run_script; drop_prints; intros Hdraw;
      try (specialize (Hdraw eq_refl); discriminate); done.
Qed.

(** X13.  With the [noplots] flag no event of the run draws anything,
    whatever [surveyplot] says.  Without it, a run that gets past lines
    65-66 shows the survey statistics (once, for the generated survey)
    exactly when [surveyplot] is set, and the run makes its one corner
    plot exactly when it goes through to the end; calls into the
    libraries taken to return, it does go through when it gets as far
    as the sampler, the naive estimator returns on the survey's arrays
    and the two extracted arrays of draws have one length. *)
Theorem plots_follow_flags args w :
  let tr := trace (run_luminosity_inference args) w in
  let survey := (generated_survey args w).1 in
  (noplots args = true -> Forall (fun e => is_plot e = false) tr) /\
  (noplots args = false -> nonzero (distMin args) -> nonzero (distMax args) ->
   survey_plots tr =
     if surveyplot args then [(survey, "surveyStats.pdf", false)] else []) /\
  (noplots args = false ->
   ((exists cc, corner_plots tr = [cc]) <->
    outcome (run_luminosity_inference args) w = Ok tt)) /\
  (reaches_sampler args w = true ->
   (forall w',
      outcome (naive_lum_estimate (observedParallaxes survey) (parallaxErrors survey)
                 (observedMagnitudes survey) (magnitudeErrors survey)) w' = Ok tt) ->
   (forall fit, fit ∈ printed_fits tr ->
      length (extract fit "sigmaAbsMag") = length (extract fit "meanAbsMag")) ->
   outcome (run_luminosity_inference args) w = Ok tt).
Proof.
  cbv zeta. split; [|split; [|split]].
  - intros Hno. run_script; try discriminate; drop_prints;
      repeat first [ apply Forall_nil_2
                   | apply Forall_cons_2; [reflexivity|]
                   | apply Forall_app_2; [now apply prints_are_no_plots|]
                   | now apply prints_are_no_plots ].
  - intros Hno Hmin Hmax. unfold survey_plots.
    run_script; try discriminate; drop_prints; done.
  - intros Hno. unfold corner_plots.
    run_script; try discriminate; drop_prints;
      (split; [intros [cc Hcc]; solve [done | discriminate Hcc]
              | intros Hout; solve [discriminate Hout | eauto]]).
  - intros (Hmax & Hmin & Hdraw)%reaches_sampler_true. revert Hdraw.
    unfold printed_fits.
    run_script; drop_prints; intros Hdraw Hnaive Hdraws;
      try (specialize (Hdraw eq_refl); discriminate); try reflexivity; exfalso.
    all: first
      [ match goal with
        | H : naive_lum_estimate _ _ _ _ ?w' = (Raise _, _, _) |- _ =>
            specialize (Hnaive w'); rewrite H in Hnaive; discriminate Hnaive
        end
      | match goal with
        | H : posterior_samples ?fit = Raise _ |- _ =>
            rewrite posterior_samples_columns in H;
            rewrite (proj2 (Nat.eqb_eq _ _) (Hdraws fit ltac:(left))) in H;
            discriminate H
        end ].
Qed.

(** X14.  Every sampler call of a run asks for four chains.  Without
    the [volumecomplete] flag it is given a list of initial values with
    one dictionary per chain, each binding absMag to one call of
    [np.random.uniform(L - 4, L, size=N)], the calls made one after the
    other after the survey is generated, where
    [L = apparentMagnitudeLimit - 5*log10(distMax) + 5] and N is the
    survey's number of stars; with the flag it is given none.  A run
    that gets as far as the sampler calls it once. *)
Theorem sampler_initialisation args w :
  let tr := trace (run_luminosity_inference args) w in
  let survey := (generated_survey args w).1 in
  let w1 := (generated_survey args w).2 in
  let maxPossibleAbsMag :=
    (apparentMagnitudeLimit survey - 5 * np_log10 (distMax args) + 5)%float in
  let initial :=
    (draws 4 (maxPossibleAbsMag - 4) maxPossibleAbsMag (numberOfStarsInSurvey survey) w1).1 in
  (forall c, c ∈ samplings tr ->
     sc_chains c = 4%Z /\
     length initial = Z.to_nat (sc_chains c) /\
     sc_init c =
       if volumecomplete args then None
       else Some (map (fun absMag => ({[ "absMag" := PyArray absMag ]} : gmap string pyval))
                    initial)) /\
  (reaches_sampler args w = true -> exists c, samplings tr = [c]).
Proof.
  cbv zeta. split; [|apply sampler_called].
  intros c. rewrite draws_length. unfold samplings.
  run_script; drop_prints; simplify_eq;
    repeat match goal with
           | H1 : ?call = _, H2 : ?call = _ |- _ => rewrite H1 in H2; simplify_eq
           end;
    intros Hc; repeat (apply elem_of_cons in Hc as [->|Hc]); try solve [inversion Hc];
    repeat split; reflexivity.
Qed.

(** X15.  For the magnitude limited model, when the range
    [maxPossibleAbsMag - initLow] of lines 97-98 is not finite (as it is
    not when the survey has no magnitude limit) the first
    [np.random.uniform] of line 101 raises OverflowError: the run ends
    there, having generated the survey and shown its statistics if
    asked to, before any Stan file is loaded. *)
Theorem initial_values_overflow args w :
  nonzero (distMax args) -> nonzero (distMin args) ->
  volumecomplete args = false ->
  drawable args (generated_survey args w).1 = false ->
  run_luminosity_inference args w =
    (Raise OverflowError,
     Print [Str "### Generating parallax survey ... ###"] ::
     Print [Str "### ... Done ###"] ::
     (if surveyplot args && negb (noplots args)
      then [ShowSurveyStatistics (generated_survey args w).1 "surveyStats.pdf" false]
      else []),
     (generated_survey args w).2).
Proof.
  intros Hmax Hmin Hvc.
  run_script; try discriminate; intros Hdraw; try discriminate; reflexivity.
Qed.

(** In binary64 a difference with infinity on the left is infinite or
    not a number, and stays so when a finite number is added or
    subtracted. *)
Lemma infinity_sub y :
  Prim2SF (infinity - y) = S754_infinity false \/ Prim2SF (infinity - y) = S754_nan.
Proof.
  rewrite sub_spec. change (Prim2SF infinity) with (S754_infinity false).
  destruct (Prim2SF y) as [s|s| |s m e]; try destruct s; cbn; auto.
Qed.

Lemma unbounded_add_finite x c :
  Prim2SF x = S754_infinity false \/ Prim2SF x = S754_nan ->
  (exists s m e, Prim2SF c = S754_finite s m e) ->
  Prim2SF (x + c) = S754_infinity false \/ Prim2SF (x + c) = S754_nan.
Proof.
  intros Hx (s & m & e & Hc). rewrite add_spec, Hc.
  destruct Hx as [-> | ->]; cbn; auto.
Qed.

Lemma unbounded_sub_finite x c :
  Prim2SF x = S754_infinity false \/ Prim2SF x = S754_nan ->
  (exists s m e, Prim2SF c = S754_finite s m e) ->
  Prim2SF (x - c) = S754_infinity false \/ Prim2SF (x - c) = S754_nan.
Proof.
  intros Hx (s & m & e & Hc). rewrite sub_spec, Hc.
  destruct Hx as [-> | ->]; cbn; auto.
Qed.

Lemma unbounded_range x c :
  Prim2SF x = S754_infinity false \/ Prim2SF x = S754_nan ->
  (exists s m e, Prim2SF c = S754_finite s m e) ->
  PrimFloat.is_finite (x - (x - c)) = false.
Proof.
  intros Hx Hc.
  assert (Hn : Prim2SF (x - (x - c)) = S754_nan).
  { rewrite sub_spec. destruct (unbounded_sub_finite x c Hx Hc) as [-> | ->];
      destruct Hx as [-> | ->]; reflexivity. }
  unfold PrimFloat.is_finite, PrimFloat.is_nan.
  rewrite FloatAxioms.eqb_spec, Hn. reflexivity.
Qed.

(** X16.  A survey without magnitude limit leaves no finite range for
    the initial values, whatever the distance bound and whatever
    [np.log10] returns for it: with an infinite apparent magnitude
    limit, [maxPossibleAbsMag] is infinite or not a number and
    [maxPossibleAbsMag - initLow] is not a number. *)
Theorem no_magnitude_limit_not_drawable args survey :
  apparentMagnitudeLimit survey = infinity -> drawable args survey = false.
Proof.
  intros Hlim. unfold drawable, initial_value_bounds. rewrite Hlim.
  apply unbounded_range.
  - apply unbounded_add_finite; [apply infinity_sub|]. vm_compute. eauto.
  - vm_compute. eauto.
Qed.

End Driver.

(** ** The module guard *)

Section ModuleGuard.

Context {L : Libs}.

Lemma prefix_spec sub s :
  String.prefix sub s = true <-> exists post, s = (sub +:+ post)%string.
Proof.
  revert s. induction sub as [|c sub IH]; intros s.
  - split; [intros _; now exists s | now destruct s].
  - destruct s as [|c' s]; [split; [discriminate | intros [post H]; discriminate]|].
    simpl.
    destruct (Ascii.ascii_dec c c') as [Heq|Hne]; [subst c'|].
    + rewrite IH. split; intros [post H]; exists post;
        [now rewrite H | cbv [String.append] in H; fold String.append in H; now injection H].
    + split; [discriminate | intros [post H]; cbv [String.append] in H; congruence].
Qed.
Lemma py_in_spec sub s :
  py_in sub s = true <-> exists pre post, s = (pre +:+ sub +:+ post)%string.
Proof.
  induction s as [|c s IH].
  - cbn. rewrite String.eqb_eq. split.
    + intros ->. now exists EmptyString, EmptyString.
    + intros (pre & post & H). destruct pre; [|discriminate]. now destruct sub.
  - cbn [py_in]. rewrite orb_true_iff, IH, prefix_spec. split.
    + intros [[post H]|(pre & post & H)].
      * now exists EmptyString, post.
      * exists (String c pre), post. now rewrite H.
    + intros ([|c' pre] & post & H).
      * left. now exists post.
      * right. exists pre, post. cbv [String.append] in H; fold String.append in H.
        now injection H.
Qed.

Lemma string_length_app s1 s2 :
  String.length (s1 +:+ s2) = (String.length s1 + String.length s2)%nat.
Proof.
  induction s1 as [|c s1 IH]; [reflexivity|].
  cbv [String.append]; fold String.append. cbn. now rewrite IH.
Qed.

(** X11.  The guard of line 169 is a substring test: the module body
    runs the inference exactly when the module's name occurs in
    "__main__", as it does when the file is executed as a script;
    under any other name, and so under any name of more than eight
    characters such as the file's own, it does nothing. *)
Theorem module_guard name parsed w :
  ((exists pre post, "__main__"%string = (pre +:+ name +:+ post)%string) ->
   module_body name parsed w = run_luminosity_inference parsed w) /\
  (~ (exists pre post, "__main__"%string = (pre +:+ name +:+ post)%string) ->
   module_body name parsed w = (Ok tt, [], w)) /\
  ((8 < String.length name)%nat -> module_body name parsed w = (Ok tt, [], w)).
Proof.
  unfold module_body.
  assert (Hnot : ~ (exists pre post, "__main__"%string = (pre +:+ name +:+ post)%string) ->
                 (if py_in name "__main__" then run_luminosity_inference parsed else ret tt) w
                 = (Ok tt, [], w)).
  { intros Hno. destruct (py_in name "__main__") eqn:Hin; [|reflexivity].
    apply py_in_spec in Hin. contradiction. }
  split; [|split; [exact Hnot|]].
  - intros Hin%py_in_spec. now rewrite Hin.
  - intros Hlong. apply Hnot. intros (pre & post & H).
    apply (f_equal String.length) in H.
    rewrite !string_length_app in H. cbn in H. lia.
Qed.

End ModuleGuard.

(** ** The driver on the stand-in libraries

    The command line [--mlim 12], run from the world [0]: neither
    distance bound is zero, the survey is magnitude limited, plots are
    on. *)

Section DriverDemo.

#[local] Existing Instance Demo.libs.

(** C3 on the command line [--mlim 12]. *)
Lemma sampler_data_demo :
  reaches_sampler Demo.args 0%nat = true /\
  exists c,
    samplings (trace (run_luminosity_inference Demo.args) 0%nat) = [c] /\
    dom (sc_data c) = common_keys ∪ {[ "surveyLimit" ]} /\
    sc_data c !! "minDist" = Some (PyFloat 1.0) /\
    sc_data c !! "maxDist" = Some (PyFloat 100.0) /\
    sc_data c !! "N" = Some (PyInt 3) /\
    sc_data c !! "obsPlx" = Some (PyArray [20.0; 40.0; 12.5]%float) /\
    sc_data c !! "errObsPlx" = Some (PyArray [1.0; 1.0; 1.0]%float) /\
    sc_data c !! "obsMag" = Some (PyArray [11.5; 11.0; 11.9]%float) /\
    sc_data c !! "errObsMag" = Some (PyArray [0.01; 0.01; 0.01]%float) /\
    sc_data c !! "surveyLimit" = Some (PyFloat 12.0).
Proof.
  assert (Hreach : reaches_sampler Demo.args 0%nat = true) by (vm_compute; reflexivity).
  destruct (sampler_data (L := Demo.libs) Demo.args 0%nat) as [Hdata Hlive].
  destruct (Hlive Hreach) as [c Hc].
  split; [exact Hreach|]. exists c. split; [exact Hc|].
  assert (Hin : c ∈ samplings (trace (run_luminosity_inference Demo.args) 0%nat))
    by (rewrite Hc; left).
  destruct (Hdata c Hin) as (Hdom & Hmin & Hmax & HN & Hplx & Herr & Hmag & Hemag & Hlim).
  split; [exact Hdom|]. split; [exact Hmin|]. split; [exact Hmax|]. split; [exact HN|].
  split; [exact Hplx|]. split; [exact Herr|]. split; [exact Hmag|]. split; [exact Hemag|].
  exact (Hlim eq_refl).
Defined.

(** C5 on the command line [--mlim 12]: the run goes through, the one
    sampler call asks for the two parameters and the corner plot is
    given the two columns of draws of the printed fit. *)
Lemma posterior_quantities_demo :
  reaches_sampler Demo.args 0%nat = true /\
  outcome (run_luminosity_inference Demo.args) 0%nat = Ok tt /\
  exists c fit cc,
    samplings (trace (run_luminosity_inference Demo.args) 0%nat) = [c] /\
    sc_pars c = ["meanAbsMag"; "sigmaAbsMag"] /\
    printed_fits (trace (run_luminosity_inference Demo.args) 0%nat) = [fit] /\
    corner_plots (trace (run_luminosity_inference Demo.args) 0%nat) = [cc] /\
    posterior_samples fit = Ok [[9.0; 0.7]; [9.1; 0.6]]%float /\
    posterior_samples fit = Ok (cc_samples cc).
Proof.
  assert (Hreach : reaches_sampler Demo.args 0%nat = true) by (vm_compute; reflexivity).
  assert (Hout : outcome (run_luminosity_inference Demo.args) 0%nat = Ok tt)
    by (vm_compute; reflexivity).
  destruct (posterior_quantities (L := Demo.libs) Demo.args 0%nat) as (Hcalls & Hfits & Hlive).
  destruct (Hlive Hreach) as [c Hc].
  assert (Hin : c ∈ samplings (trace (run_luminosity_inference Demo.args) 0%nat))
    by (rewrite Hc; left).
  destruct (Hcalls c Hin) as (Hpars & w' & Hprinted).
  set (fit := (stan_sampling (sc_model c) (sc_data c) (sc_pars c) (sc_iter c) (sc_chains c)
                 (sc_thin c) (sc_seed c) (sc_init c) w').1) in *.
  assert (Hfit : fit ∈ printed_fits (trace (run_luminosity_inference Demo.args) 0%nat))
    by (rewrite Hprinted; left).
  destruct (Hfits fit Hfit) as (Hcols & Hcorner & _).
  assert (Hcc : exists cc,
             corner_plots (trace (run_luminosity_inference Demo.args) 0%nat) = [cc])
    by (eexists; vm_compute; reflexivity).
  destruct Hcc as [cc Hcc].
  split; [exact Hreach|]. split; [exact Hout|].
  exists c, fit, cc. split; [exact Hc|]. split; [exact Hpars|]. split; [exact Hprinted|].
  split; [exact Hcc|]. split; [exact Hcols|].
  apply Hcorner. rewrite Hcc. left.
Defined.

(** C7 on the command line [--mlim 12], for the module's own estimator
    and for a function that prints its four arrays: what follows the
    sampler call shows the magnitude errors of the survey as the fourth
    argument. *)
Lemma one_dataset_demo :
  reaches_sampler Demo.args 0%nat = true /\
  (exists c rest fit w' post,
     after_sampling (trace (run_luminosity_inference_with naive_lum_estimate Demo.args) 0%nat)
       = Some (c, rest) /\
     sc_data c !! "obsPlx" = Some (PyArray [20.0; 40.0; 12.5]%float) /\
     sc_data c !! "errObsPlx" = Some (PyArray [1.0; 1.0; 1.0]%float) /\
     sc_data c !! "obsMag" = Some (PyArray [11.5; 11.0; 11.9]%float) /\
     sc_data c !! "errObsMag" = Some (PyArray [0.01; 0.01; 0.01]%float) /\
     rest = Print [] :: PrintFit fit :: Print [] ::
            trace (naive_lum_estimate [20.0; 40.0; 12.5]%float [1.0; 1.0; 1.0]%float
                     [11.5; 11.0; 11.9]%float [0.01; 0.01; 0.01]%float) w' ++ post) /\
  (exists c rest fit w' post,
     after_sampling
       (trace (run_luminosity_inference_with
                 (fun a b c d => print (map F2 (a ++ b ++ c ++ d))) Demo.args) 0%nat)
       = Some (c, rest) /\
     sc_data c !! "errObsMag" = Some (PyArray [0.01; 0.01; 0.01]%float) /\
     rest = Print [] :: PrintFit fit :: Print [] ::
            trace (print (map F2 ([20.0; 40.0; 12.5] ++ [1.0; 1.0; 1.0] ++
                                  [11.5; 11.0; 11.9] ++ [0.01; 0.01; 0.01])%float)) w'
            ++ post).
Proof.
  assert (Hreach : reaches_sampler Demo.args 0%nat = true) by (vm_compute; reflexivity).
  split; [exact Hreach|]. split.
  - destruct (one_dataset (L := Demo.libs) naive_lum_estimate Demo.args 0%nat)
      as [Hdata Hlive].
    destruct (Hlive Hreach) as (c & rest & Hafter).
    destruct (Hdata c rest Hafter)
      as ((Hplx & Herr & Hmag & Hemag) & fit & w' & post & Hrest & _).
    exists c, rest, fit, w', post. split; [exact Hafter|].
    split; [exact Hplx|]. split; [exact Herr|]. split; [exact Hmag|].
    split; [exact Hemag|]. exact Hrest.
  - destruct (one_dataset (L := Demo.libs)
                (fun a b c d => print (map F2 (a ++ b ++ c ++ d))) Demo.args 0%nat)
      as [Hdata Hlive].
    destruct (Hlive Hreach) as (c & rest & Hafter).
    destruct (Hdata c rest Hafter)
      as ((_ & _ & _ & Hemag) & fit & w' & post & Hrest & _).
    exists c, rest, fit, w', post. split; [exact Hafter|].
    split; [exact Hemag|]. exact Hrest.
Defined.

(** C2, at the failing input.  The default command line: no magnitude
    limit ([mlim] is infinite) and the magnitude limited model.  The
    run raises OverflowError on line 101, before line 108: no Stan file
    is loaded and no model is cached. *)
Theorem default_run_loads_no_model :
  volumecomplete default_args = false /\
  outcome (run_luminosity_inference default_args) 0%nat = Raise OverflowError /\
  loaded_files (trace (run_luminosity_inference default_args) 0%nat) = [] /\
  cached_models (trace (run_luminosity_inference default_args) 0%nat) = [].
Proof. repeat split; vm_compute; reflexivity. Qed.

(** C6, at the failing input.  The default command line, plots on: the
    run raises OverflowError on line 101 and draws nothing, no corner
    plot either. *)
Theorem default_run_draws_no_corner_plot :
  noplots default_args = false /\
  outcome (run_luminosity_inference default_args) 0%nat = Raise OverflowError /\
  corner_plots (trace (run_luminosity_inference default_args) 0%nat) = [] /\
  List.filter is_plot (trace (run_luminosity_inference default_args) 0%nat) = [].
Proof. repeat split; vm_compute; reflexivity. Qed.

(** C10, at the failing input.  The default command line: the survey
    has no magnitude limit, both bounds [initLow] and
    [maxPossibleAbsMag] of the initial values are infinite and their
    range is not finite; the first [np.random.uniform] of line 101
    raises OverflowError, and the run ends after the two lines about
    the survey, without initial values and without a sampler call. *)
Theorem default_run_draws_no_initial_values :
  volumecomplete default_args = false /\
  initial_value_bounds default_args (generated_survey default_args 0%nat).1 =
    (infinity, infinity) /\
  drawable default_args (generated_survey default_args 0%nat).1 = false /\
  run_luminosity_inference default_args 0%nat =
    (Raise OverflowError,
     [Print [Str "### Generating parallax survey ... ###"]; Print [Str "### ... Done ###"]],
     0%nat) /\
  samplings (trace (run_luminosity_inference default_args) 0%nat) = [].
Proof. repeat split; vm_compute; reflexivity. Qed.

(** The run of the command line [--mlim 12] goes through and draws one
    corner plot. *)
Lemma demo_run_completes :
  outcome (run_luminosity_inference Demo.args) 0%nat = Ok tt /\
  length (corner_plots (trace (run_luminosity_inference Demo.args) 0%nat)) = 1%nat.
Proof. split; vm_compute; reflexivity. Qed.

End DriverDemo.

(** ** The naive estimate of a run on the stand-in surveys *)

Section EstimateDemo.

(** C4 as amended, on the command line [--mlim 12]: on the survey of
    three stars the run prints the estimate, on the survey of two stars
    the line "Cannot make naive estimate". *)
Lemma naive_estimate_of_a_run_demo :
  (exists c rest fit w' post,
     after_sampling (trace (run_luminosity_inference (L := Demo.libs) Demo.args) 0%nat)
       = Some (c, rest) /\
     rest = Print [] :: PrintFit fit :: Print [] ::
            trace (naive_lum_estimate (L := Demo.libs)
                     [20.0; 40.0; 12.5]%float [1.0; 1.0; 1.0]%float
                     [11.5; 11.0; 11.9]%float [0.01; 0.01; 0.01]%float) w' ++ post /\
     Forall (fun e => is_plot (L := Demo.libs) e = true) post /\
     naive_lum_estimate (L := Demo.libs)
       [20.0; 40.0; 12.5]%float [1.0; 1.0; 1.0]%float
       [11.5; 11.0; 11.9]%float [0.01; 0.01; 0.01]%float w' =
       (Ok tt,
        estimate_report (L := Demo.libs) 3 3
          (naive_values (L := Demo.libs) [20.0; 40.0; 12.5]%float
             [11.5; 11.0; 11.9]%float [0; 1; 2]%nat)
          (zip_with PrimFloat.add
             (naive_values (L := Demo.libs) [20.0; 40.0; 12.5]%float
                [11.5; 11.0; 11.9]%float [0; 1; 2]%nat)
             (map (lk_value (L := Demo.libs))
                (relative_errors [20.0; 40.0; 12.5]%float [1.0; 1.0; 1.0]%float
                   [0; 1; 2]%nat))),
        w')) /\
  (exists c rest fit w' post,
     after_sampling (trace (run_luminosity_inference (L := Few.libs) Demo.args) 0%nat)
       = Some (c, rest) /\
     rest = Print [] :: PrintFit fit :: Print [] ::
            trace (naive_lum_estimate (L := Few.libs)
                     [20.0; 40.0]%float [1.0; 1.0]%float
                     [11.5; 11.0]%float [0.01; 0.01]%float) w' ++ post /\
     Forall (fun e => is_plot (L := Few.libs) e = true) post /\
     naive_lum_estimate (L := Few.libs)
       [20.0; 40.0]%float [1.0; 1.0]%float [11.5; 11.0]%float [0.01; 0.01]%float w' =
       (Ok tt, [Print [Str "Cannot make naive estimate"]], w')).
Proof.
  split.
  - match goal with
    | |- context [after_sampling ?t] =>
        destruct (after_sampling t) as [[c rest]|] eqn:Hafter;
        [|vm_compute in Hafter; discriminate Hafter]
    end.
    destruct (naive_estimate_of_a_run (L := Demo.libs) Demo.args 0%nat c rest Hafter
                eq_refl eq_refl) as (fit & w' & post & Hrest & Hpost & _ & Hmany).
    exists c, rest, fit, w', post. split; [reflexivity|]. split; [exact Hrest|].
    split; [exact Hpost|].
    exact (Hmany ltac:(vm_compute; lia) ltac:(vm_compute; reflexivity)).
  - match goal with
    | |- context [after_sampling ?t] =>
        destruct (after_sampling t) as [[c rest]|] eqn:Hafter;
        [|vm_compute in Hafter; discriminate Hafter]
    end.
    destruct (naive_estimate_of_a_run (L := Few.libs) Demo.args 0%nat c rest Hafter
                eq_refl eq_refl) as (fit & w' & post & Hrest & Hpost & Hfew & _).
    exists c, rest, fit, w', post. split; [reflexivity|]. split; [exact Hrest|].
    split; [exact Hpost|].
    exact (Hfew ltac:(vm_compute; lia)).
Defined.

End EstimateDemo.

(** ** The further properties on the stand-in libraries *)

Section MoreDemo.

#[local] Existing Instance Demo.libs.

(** X2 on no star at all. *)
Lemma naive_lum_estimate_few_stars_demo :
  naive_lum_estimate [] [] [] [] 0%nat =
    (Ok tt, [Print [Str "Cannot make naive estimate"]], 0%nat).
Proof.
  apply (naive_lum_estimate_few_stars (L := Demo.libs) [] [] [] [] 0%nat).
  - reflexivity.
  - cbn. lia.
Defined.

(** X3 on three parallaxes and two errors. *)
Lemma naive_lum_estimate_shape_mismatch_demo :
  naive_lum_estimate [20.0; 40.0; 12.5]%float [1.0; 1.0]%float
    [11.5; 11.0; 11.9]%float [0.01; 0.01; 0.01]%float 0%nat
  = (Raise ValueError, [], 0%nat).
Proof.
  apply (naive_lum_estimate_shape_mismatch (L := Demo.libs)); cbn; lia.
Defined.

(** X4 on three parallaxes and one error for all of them: the cut takes
    the error for each star and selects the three, line 42 cannot index
    the error array with them. *)
Lemma naive_lum_estimate_index_error_demo :
  naive_lum_estimate [20.0; 40.0; 12.5]%float [1.0]%float
    [11.5; 11.0; 11.9]%float [0.01; 0.01; 0.01]%float 0%nat
  = (Raise IndexError, [], 0%nat).
Proof.
  apply (naive_lum_estimate_index_error (L := Demo.libs)
           [20.0; 40.0; 12.5]%float [1.0]%float [11.5; 11.0; 11.9]%float
           [0.01; 0.01; 0.01]%float [20.0; 40.0; 12.5]%float 0%nat).
  - vm_compute. reflexivity.
  - vm_compute. lia.
  - exists 1%nat. split.
    + apply list_elem_of_lookup_2 with (i := 1%nat). vm_compute. reflexivity.
    + right. right. cbn. lia.
Defined.

(** X5 on a parallax of 20 with an error of 1. *)
Lemma good_parallax_sound_demo :
  is_nan 20.0 = false /\ is_nan 1.0 = false /\
  PrimFloat.ltb (1.0 / 20.0) 0 = false /\
  (PrimFloat.ltb 0 1.0 = true -> PrimFloat.ltb 0 20.0 = true).
Proof.
  apply (good_parallax_sound 20.0 1.0). vm_compute. reflexivity.
Defined.

(** X6 on the three stars of the rounding edge. *)
Lemma naive_lum_estimate_failure_mode_demo :
  ValueError = ValueError /\
  exists i p e,
    i ∈ goodplx [8.17260580978727; 20.0; 40.0]%float [1.4302060167127721; 1.0; 1.0]%float /\
    [8.17260580978727; 20.0; 40.0]%float !! i = Some p /\
    [1.4302060167127721; 1.0; 1.0]%float !! i = Some e /\
    good_parallax p e = true /\ PrimFloat.ltb 0.175 (e / p) = true.
Proof.
  apply (naive_lum_estimate_failure_mode (L := Demo.libs)
           [8.17260580978727; 20.0; 40.0]%float [1.4302060167127721; 1.0; 1.0]%float
           [12.5; 12.5; 11.0]%float [0.01; 0.01; 0.01]%float 0%nat ValueError).
  - reflexivity.
  - reflexivity.
  - vm_compute. reflexivity.
Defined.

(** X7 on the command line [--distMax 0 --mlim 12]. *)
Lemma zero_distance_bound_demo :
  run_luminosity_inference Edge.zero_args 0%nat = (Raise ZeroDivisionError, [], 0%nat).
Proof.
  apply (zero_distance_bound (L := Demo.libs) Edge.zero_args 0%nat).
  left. vm_compute. reflexivity.
Defined.

(** X8 on the command line [--mlim 12]. *)
Lemma sampler_settings_demo :
  reaches_sampler Demo.args 0%nat = true /\
  exists c,
    samplings (trace (run_luminosity_inference Demo.args) 0%nat) = [c] /\
    sc_iter c = 10000%Z /\ sc_thin c = 5%Z /\ sc_seed c = None.
Proof.
  assert (Hreach : reaches_sampler Demo.args 0%nat = true) by (vm_compute; reflexivity).
  destruct (sampler_settings (L := Demo.libs) Demo.args 0%nat) as [Hsettings Hlive].
  destruct (Hlive Hreach) as [c Hc].
  assert (Hin : c ∈ samplings (trace (run_luminosity_inference Demo.args) 0%nat))
    by (rewrite Hc; left).
  destruct (Hsettings c Hin) as (Hiter & Hthin & Hseed).
  split; [exact Hreach|]. exists c. split; [exact Hc|].
  split; [exact Hiter|]. split; [exact Hthin|]. exact Hseed.
Defined.

(** X9 on the command line [--mlim 12]. *)
Lemma drawing_of_a_run_demo :
  let tr := trace (run_luminosity_inference Demo.args) 0%nat in
  exists fit samples,
    printed_fits tr = [fit] /\ posterior_samples fit = Ok samples /\
    List.filter is_plot tr =
      (if surveyplot Demo.args
       then [ShowSurveyStatistics (generated_survey Demo.args 0%nat).1 "surveyStats.pdf" false]
       else []) ++
      corner_figure
        {| cc_samples := samples; cc_labels := ["$\mu_M$"; "$\sigma_M$"];
           cc_truths := [muM Demo.args; sigmaM Demo.args]; cc_truth_color := "r";
           cc_quantiles := [0.16; 0.50; 0.84]%float; cc_show_titles := true |}.
Proof.
  apply (drawing_of_a_run (L := Demo.libs) Demo.args 0%nat); vm_compute; reflexivity.
Defined.

(** X12 on the command line [--mlim 12]. *)
Lemma model_selection_demo :
  reaches_sampler Demo.args 0%nat = true /\
  loaded_files (trace (run_luminosity_inference Demo.args) 0%nat) =
    ["luminosity_inference_distance_prior.stan"] /\
  cached_models (trace (run_luminosity_inference Demo.args) 0%nat) =
    [(load_stan_code "luminosity_inference_distance_prior.stan",
      "luminosityInferenceDistPrior")] /\
  map sc_model (samplings (trace (run_luminosity_inference Demo.args) 0%nat)) =
    [stan_cache (load_stan_code "luminosity_inference_distance_prior.stan")
       "luminosityInferenceDistPrior"].
Proof.
  assert (Hreach : reaches_sampler Demo.args 0%nat = true) by (vm_compute; reflexivity).
  destruct (model_selection (L := Demo.libs) Demo.args 0%nat) as [_ Hlive].
  destruct (Hlive Hreach) as (Hfiles & Hcached & Hmodels).
  split; [exact Hreach|]. split; [exact Hfiles|]. split; [exact Hcached|]. exact Hmodels.
Defined.

(** X13 on the command lines [--mlim 12 --surveyplot --noplots], which
    draws nothing, and [--mlim 12], which shows no survey statistics,
    goes through and makes its corner plot. *)
Lemma plots_follow_flags_demo :
  Forall (fun e => is_plot e = false)
    (trace (run_luminosity_inference Demo.quiet_args) 0%nat) /\
  survey_plots (trace (run_luminosity_inference Demo.args) 0%nat) = [] /\
  outcome (run_luminosity_inference Demo.args) 0%nat = Ok tt /\
  exists cc, corner_plots (trace (run_luminosity_inference Demo.args) 0%nat) = [cc].
Proof.
  destruct (plots_follow_flags (L := Demo.libs) Demo.quiet_args 0%nat) as (Hquiet & _).
  destruct (plots_follow_flags (L := Demo.libs) Demo.args 0%nat)
    as (_ & Hsurvey & Hcorner & Hthrough).
  assert (Hout : outcome (run_luminosity_inference Demo.args) 0%nat = Ok tt).
  { apply Hthrough.
    - vm_compute. reflexivity.
    - intros w'. vm_compute. reflexivity.
    - intros [] _. vm_compute. reflexivity. }
  split; [exact (Hquiet eq_refl)|].
  split; [exact (Hsurvey eq_refl eq_refl eq_refl)|].
  split; [exact Hout|].
  apply (Hcorner eq_refl). exact Hout.
Defined.

(** X14 on the command line [--mlim 12]: four dictionaries of initial
    values, each with the stand-in's draw for the three stars. *)
Lemma sampler_initialisation_demo :
  reaches_sampler Demo.args 0%nat = true /\
  exists c,
    samplings (trace (run_luminosity_inference Demo.args) 0%nat) = [c] /\
    sc_chains c = 4%Z /\
    sc_init c =
      Some (replicate 4
              ({[ "absMag" := PyArray [-487.0; -487.0; -487.0]%float ]} : gmap string pyval)).
Proof.
  assert (Hreach : reaches_sampler Demo.args 0%nat = true) by (vm_compute; reflexivity).
  destruct (sampler_initialisation (L := Demo.libs) Demo.args 0%nat) as [Hinit Hlive].
  destruct (Hlive Hreach) as [c Hc].
  assert (Hin : c ∈ samplings (trace (run_luminosity_inference Demo.args) 0%nat))
    by (rewrite Hc; left).
  destruct (Hinit c Hin) as (Hchains & _ & Hvalues).
  split; [exact Hreach|]. exists c. split; [exact Hc|]. split; [exact Hchains|].
  exact Hvalues.
Defined.

(** X15 on the default command line, where the survey has no magnitude
    limit. *)
Lemma initial_values_overflow_demo :
  run_luminosity_inference default_args 0%nat =
    (Raise OverflowError,
     [Print [Str "### Generating parallax survey ... ###"]; Print [Str "### ... Done ###"]],
     0%nat).
Proof.
  apply (initial_values_overflow (L := Demo.libs) default_args 0%nat);
    vm_compute; reflexivity.
Defined.

(** X16 on the survey of the default command line. *)
Lemma no_magnitude_limit_not_drawable_demo :
  drawable default_args (generated_survey default_args 0%nat).1 = false.
Proof.
  apply (no_magnitude_limit_not_drawable (L := Demo.libs)). reflexivity.
Defined.

End MoreDemo.

Section EdgeDemo.

#[local] Existing Instance Edge.libs.

(** X10 on the survey of the rounding edge: the run has sampled and
    printed the fit when the naive estimator raises ValueError. *)
Lemma run_failure_modes_demo :
  outcome (run_luminosity_inference Demo.args) 0%nat = Raise ValueError /\
  length (samplings (trace (run_luminosity_inference Demo.args) 0%nat)) = 1%nat /\
  corner_plots (trace (run_luminosity_inference Demo.args) 0%nat) = [] /\
  exists fit,
    printed_fits (trace (run_luminosity_inference Demo.args) 0%nat) = [fit] /\
    ((exists w',
        outcome (naive_lum_estimate
                   [8.17260580978727; 20.0; 40.0]%float [1.4302060167127721; 1.0; 1.0]%float
                   [11.5; 11.5; 11.0]%float [0.01; 0.01; 0.01]%float) w' =
        Raise ValueError) \/
     ValueError = ValueError /\
     length (extract fit "sigmaAbsMag") <> length (extract fit "meanAbsMag")).
Proof.
  assert (Hout : outcome (run_luminosity_inference Demo.args) 0%nat = Raise ValueError)
    by (vm_compute; reflexivity).
  split; [exact Hout|].
  destruct (run_failure_modes (L := Edge.libs) Demo.args 0%nat ValueError Hout)
    as [(Hzero & _) | [(Hoverflow & _) | Hlate]];
    [discriminate Hzero | discriminate Hoverflow | exact Hlate].
Defined.

End EdgeDemo.
